(** * primitive-modbus-utility: the register access and value-encoding layer

    A shallow embedding of [main.js] (with the constants of [config.js]) and
    the properties of its parser, endianness codec, name resolver, formatter
    and read/write handlers.

    Conventions of the embedding.
    - A JavaScript Number is [NaN] or [Num z], an integer.  The embedding
      is that of the program on the safe integers, those of magnitude
      below 2^53, which a Number holds one by one: there [parseInt], [+]
      and [toString] are exact, as written here.  Beyond them JavaScript
      rounds to the nearest double (and writes large numbers in exponent
      form), which the embedding does not follow: every statement that
      gives the value of a parse, of a sum or of a decimal or hexadecimal
      form carries the bound [safeInteger] on the integers it speaks of.
      Fractions and infinities are outside the embedding (the program
      makes none from safe integers); the sign of zero is not tracked (no
      operation of the program tells [-0] from [0]).
    - Strings are ASCII: case mapping and white space are those of the ASCII
      range.
    - [async] code is a state-and-exception monad over the lines still to be
      typed by the operator and the trace of what the program did. *)

From Stdlib Require Import ZArith Ascii String List Lia Bool.
From stdpp Require Import base option list gmap strings.

Local Open Scope string_scope.
Local Open Scope Z_scope.

(** ** JavaScript values and built-ins used by the program *)

Module Js.

Inductive Number : Type :=
| NaN
| Num (z : Z).

Definition Number_eqb (a b : Number) : bool :=
  match a, b with
  | Num x, Num y => x =? y
  | _, _ => false          (* NaN is not equal to anything, itself included *)
  end.

(** [a + b] on Numbers: exact while the sum is a safe integer (JavaScript
    rounds from 2^53 on). *)
Definition add (a b : Number) : Number :=
  match a, b with
  | Num x, Num y => Num (x + y)
  | _, _ => NaN
  end.

(** *** Characters *)

Definition code (c : ascii) : Z := Z.of_N (N_of_ascii c).

Definition chr (n : Z) : ascii := ascii_of_N (Z.to_N n).

(** White space and line terminators, as skipped by [parseInt] and [trim]
    and matched by the regular expression class [\s]. *)
Definition isWhiteSpace (c : ascii) : bool :=
  let n := code c in
  ((9 <=? n) && (n <=? 13)) || (n =? 32).

Definition charToUpperCase (c : ascii) : ascii :=
  let n := code c in
  if (97 <=? n) && (n <=? 122) then chr (n - 32) else c.

Definition charToLowerCase (c : ascii) : ascii :=
  let n := code c in
  if (65 <=? n) && (n <=? 90) then chr (n + 32) else c.

(** The value of a character as a digit in some radix up to 36. *)
Definition digitValue (c : ascii) : option Z :=
  let n := code c in
  if (48 <=? n) && (n <=? 57) then Some (n - 48)
  else if (97 <=? n) && (n <=? 122) then Some (n - 87)
  else if (65 <=? n) && (n <=? 90) then Some (n - 55)
  else None.

Definition radixDigit (R : Z) (c : ascii) : option Z :=
  match digitValue c with
  | Some d => if d <? R then Some d else None
  | None => None
  end.

(** The character of a digit, lowercase as [Number.prototype.toString]
    writes it. *)
Definition digitChar (d : Z) : ascii :=
  if d <? 10 then chr (48 + d) else chr (87 + d).

(** *** String.prototype *)

Fixpoint toUpperCase (s : string) : string :=
  match s with
  | EmptyString => EmptyString
  | String c r => String (charToUpperCase c) (toUpperCase r)
  end.

Fixpoint toLowerCase (s : string) : string :=
  match s with
  | EmptyString => EmptyString
  | String c r => String (charToLowerCase c) (toLowerCase r)
  end.

Definition startsWith (s p : string) : bool := String.prefix p s.

(** [s.slice(n)] for a non-negative [n]. *)
Fixpoint slice_from (n : nat) (s : string) : string :=
  match n, s with
  | O, _ => s
  | S k, String _ r => slice_from k r
  | S _, EmptyString => EmptyString
  end.

(** [s.replace(pat, rep)] with a string pattern: the first occurrence only.
    ([rep] holds no [$], so it is inserted as it is.) *)
Fixpoint replace (pat rep s : string) : string :=
  if String.prefix pat s then rep ++ slice_from (String.length pat) s
  else match s with
       | EmptyString => EmptyString
       | String c r => String c (replace pat rep r)
       end.

Fixpoint repeatChar (n : nat) (c : ascii) : string :=
  match n with
  | O => EmptyString
  | S k => String c (repeatChar k c)
  end.

(** [s.padStart(len, c)] with a one-character filler. *)
Definition padStart (len : nat) (c : ascii) (s : string) : string :=
  repeatChar (len - String.length s) c ++ s.

Fixpoint trimStart (s : string) : string :=
  match s with
  | EmptyString => EmptyString
  | String c r => if isWhiteSpace c then trimStart r else s
  end.

(** Drops the white space at the end: [None] stands for a string that was
    white space only. *)
Fixpoint trimEnd_aux (s : string) : option string :=
  match s with
  | EmptyString => None
  | String c r =>
      match trimEnd_aux r with
      | Some r' => Some (String c r')
      | None => if isWhiteSpace c then None else Some (String c EmptyString)
      end
  end.

Definition trimEnd (s : string) : string :=
  match trimEnd_aux s with Some r => r | None => EmptyString end.

Definition trim (s : string) : string := trimEnd (trimStart s).

(** [s.split(/\s+/)]: the pieces between the maximal runs of white space;
    a run at either end leaves an empty piece there, and the empty string
    gives one empty piece.  [cur] is the piece being read, reversed, and
    [inRun] tells whether the last character was white space. *)
Fixpoint split_ws_aux (s : string) (cur : list ascii) (inRun : bool)
  : list string :=
  match s with
  | EmptyString => [string_of_list_ascii (rev cur)]
  | String c r =>
      if isWhiteSpace c then
        if inRun then split_ws_aux r cur true
        else string_of_list_ascii (rev cur) :: split_ws_aux r [] true
      else split_ws_aux r (c :: cur) false
  end.

Definition split_ws (s : string) : list string := split_ws_aux s [] false.

(** *** parseInt *)

Fixpoint digitsPrefix (R : Z) (s : string) : list Z :=
  match s with
  | EmptyString => []
  | String c r =>
      match radixDigit R c with
      | Some d => d :: digitsPrefix R r
      | None => []
      end
  end.

(** The integer written by a list of digits, most significant first. *)
Definition mathInt (R : Z) (ds : list Z) : Z :=
  fold_left (fun acc d => acc * R + d) ds 0.

Definition stripSign (s : string) : Z * string :=
  match s with
  | String "-" r => (-1, r)
  | String "+" r => (1, r)
  | _ => (1, s)
  end.

Definition stripHexPrefix (s : string) : string :=
  match s with
  | String "0" (String "x" r) => r
  | String "0" (String "X" r) => r
  | _ => s
  end.

(** [parseInt(s, radix)] for an explicit radix (the program passes 2, 10 or
    16): leading white space is skipped, one sign is read, with radix 16 one
    "0x" or "0X" is dropped, then the longest run of digits of the radix is
    the number; no such digit gives [NaN].  The number is the integer the
    digits write: that is what JavaScript returns while it is a safe
    integer (beyond, JavaScript returns the nearest double). *)
Definition parseInt (s : string) (radix : Z) : Number :=
  let '(sign, S1) := stripSign (trimStart s) in
  if (radix <? 2) || (36 <? radix) then NaN
  else
    let S2 := if radix =? 16 then stripHexPrefix S1 else S1 in
    match digitsPrefix radix S2 with
    | [] => NaN
    | ds => Num (sign * mathInt radix ds)
    end.

(** *** Number.prototype.toString and bit operators *)

Fixpoint digitsOf (fuel : nat) (R n : Z) (acc : string) : string :=
  match fuel with
  | O => acc
  | S f =>
      let acc' := String (digitChar (n mod R)) acc in
      if n / R =? 0 then acc' else digitsOf f R (n / R) acc'
  end.

(** The digits of a non-negative integer; it has at most [log2 n + 1] of
    them in any radix.  These are the digits JavaScript writes for a safe
    integer (a larger Number is written by its shortest digits, and in
    radix 10 in exponent form from 1e21 on). *)
Definition natToString (R n : Z) : string :=
  digitsOf (S (Z.to_nat (Z.log2 n))) R n EmptyString.

Definition toString (v : Number) (R : Z) : string :=
  match v with
  | NaN => "NaN"
  | Num z => if z <? 0 then String "-" (natToString R (- z))
             else natToString R z
  end.

Definition ToInt32 (v : Number) : Z :=
  match v with
  | NaN => 0
  | Num z => (z + 2 ^ 31) mod 2 ^ 32 - 2 ^ 31
  end.

Definition ToUint32 (v : Number) : Z :=
  match v with
  | NaN => 0
  | Num z => z mod 2 ^ 32
  end.

Definition bitAnd (a b : Number) : Number :=
  Num (Z.land (ToInt32 a) (ToInt32 b)).

Definition bitOr (a b : Number) : Number :=
  Num (Z.lor (ToInt32 a) (ToInt32 b)).

Definition shiftRight (a b : Number) : Number :=
  Num (Z.shiftr (ToInt32 a) (ToUint32 b mod 32)).

Definition shiftLeft (a b : Number) : Number :=
  Num (ToInt32 (Num (Z.shiftl (ToInt32 a) (ToUint32 b mod 32)))).

(** [arr.slice(0, end)] *)
Definition slice0 {A : Type} (arr : list A) (e : Number) : list A :=
  match e with
  | NaN => []
  | Num k =>
      if k <? 0 then take (Z.to_nat (Z.max (Z.of_nat (length arr) + k) 0)) arr
      else take (Z.to_nat k) arr
  end.

End Js.

Import Js.

(** ** config.js *)

Record Config : Type := {
  SLAVE_ID : Number;
  DEFAULT_QUANTITY : Number;
  ENDIANNESS : string            (* "BIG" or "LITTLE" *)
}.

Definition config : Config :=
  {| SLAVE_ID := Num 1; DEFAULT_QUANTITY := Num 1; ENDIANNESS := "BIG" |}.

(** ** register-names.json

    The file is produced off line and is not part of the sources: each table
    is an object with "0xADDR": "Name" pairs, or absent ([false], [null])
    when names are disabled for the class. *)

Record RegisterNames : Type := {
  DISCRETE_INPUT_NAMES : option (gmap string string);
  COIL_NAMES : option (gmap string string);
  HOLDING_REGISTER_NAMES : option (gmap string string);
  INPUT_REGISTER_NAMES : option (gmap string string)
}.

(** ** The transport collaborator (the modbus-serial client) *)

Inductive Response (A : Type) : Type :=
| Resolve (data : A)
| Reject (message : string).
Arguments Resolve {A} data.
Arguments Reject {A} message.

Definition mapResponse {A B : Type} (f : A -> B) (r : Response A)
  : Response B :=
  match r with
  | Resolve data => Resolve (f data)
  | Reject message => Reject message
  end.

Record Client : Type := {
  readCoils : Number -> Number -> Response (list bool);
  readDiscreteInputs : Number -> Number -> Response (list bool);
  readHoldingRegisters : Number -> Number -> Response (list Number);
  readInputRegisters : Number -> Number -> Response (list Number);
  writeCoils : Number -> list bool -> Response unit;
  writeRegisters : Number -> list Number -> Response unit
}.

Inductive Call : Type :=
| ReadCoils (address quantity : Number)
| ReadDiscreteInputs (address quantity : Number)
| ReadHoldingRegisters (address quantity : Number)
| ReadInputRegisters (address quantity : Number)
| WriteCoils (address : Number) (values : list bool)
| WriteRegisters (address : Number) (values : list Number).

(** ** What the program shows and does *)

Inductive Row : Type :=
| BitRow (Reg Addr Name : string) (Value : bool)
| RegisterRow (Reg Addr Name : string) (Decimal : Number) (Hex Binary : string).

Inductive Event : Type :=
| Asked (question : string)            (* rl.question *)
| Called (c : Call)                    (* a request sent to the device *)
| Log (line : string)                  (* console.log *)
| Error (args : list string)           (* console.error *)
| Table (rows : list Row).             (* console.table *)

(** ** Asynchronous code: state, exceptions and a promise that never settles *)

Module Async.

Record World : Type := {
  stdin : list string;       (* the lines the operator will type *)
  trace : list Event         (* what happened so far, oldest first *)
}.

Inductive Outcome (A : Type) : Type :=
| Return (a : A)
| Throw (message : string)
| Pending.                   (* waiting for a line that never comes *)
Arguments Return {A} a.
Arguments Throw {A} message.
Arguments Pending {A}.

Definition t (A : Type) : Type := World -> Outcome A * World.

Definition ret {A} (a : A) : t A := fun w => (Return a, w).

Definition bind {A B} (m : t A) (k : A -> t B) : t B :=
  fun w =>
    match m w with
    | (Return a, w') => k a w'
    | (Throw e, w') => (Throw e, w')
    | (Pending, w') => (Pending, w')
    end.

Definition throw {A} (message : string) : t A := fun w => (Throw message, w).

(** [try { body } catch (err) { handler(err.message) }] *)
Definition try_catch {A} (body : t A) (handler : string -> t A) : t A :=
  fun w =>
    match body w with
    | (Throw e, w') => handler e w'
    | r => r
    end.

Definition emit (e : Event) : t unit :=
  fun w => (Return tt, {| stdin := stdin w; trace := trace w ++ [e] |}).

(** Runs a computation against the lines the operator types. *)
Definition run {A} (m : t A) (lines : list string) : Outcome A * list Event :=
  let '(r, w) := m {| stdin := lines; trace := [] |} in (r, trace w).

Definition events {A} (m : t A) (lines : list string) : list Event :=
  snd (run m lines).

End Async.

Notation "'let*' x ':=' m 'in' k" := (Async.bind m (fun x => k))
  (at level 10, x name, m at level 100, k at level 200).
Notation "m ';;' k" := (Async.bind m (fun _ => k))
  (at level 100, k at level 200, right associativity).

Import Async.

Definition console_log (line : string) : Async.t unit := emit (Log line).
Definition console_error (args : list string) : Async.t unit := emit (Error args).
Definition console_table (rows : list Row) : Async.t unit := emit (Table rows).

(** [await] of a request to the device: the request is sent, and its
    promise resolves with the data or rejects with an error. *)
Definition await {A} (c : Call) (r : Response A) : Async.t A :=
  emit (Called c) ;;
  match r with
  | Resolve data => ret data
  | Reject message => throw message
  end.

(** ** main.js *)

(** The one-character string of a double quote. *)
Definition dquote : string := String (chr 34) EmptyString.

Definition FUNCTION_NAMES (functionCode : string) : option string :=
  if String.eqb functionCode "0x01" then Some "Read Coils"
  else if String.eqb functionCode "0x02" then Some "Read Discrete Inputs"
  else if String.eqb functionCode "0x03" then Some "Read Holding Registers"
  else if String.eqb functionCode "0x04" then Some "Read Input Registers"
  else if String.eqb functionCode "0x0F" then Some "Write Multiple Coils"
  else if String.eqb functionCode "0x10"
       then Some "Write Multiple Holding Registers"
  else None.

(** Parse a string value into a number (binary, hex, or decimal). *)
Definition parseValue (val : string) : Number :=
  if startsWith val "b" then parseInt (slice_from 1 val) 2
  else if startsWith val "0x" || startsWith val "0X" then parseInt val 16
  else parseInt val 10.

(** Convert decimal to hexadecimal with 0x prefix. *)
Definition toHex (num : Number) : string :=
  "0x" ++ toUpperCase (padStart 4 "0" (toString num 16)).

(** [s.replace(/(.{4})/g, "$1 ")]: a space after every full group of four
    characters (the strings it is given hold no line terminator). *)
Fixpoint spaceEveryFour (s : string) : string :=
  match s with
  | String a (String b (String c (String d r))) =>
      String a (String b (String c (String d (String " " (spaceEveryFour r)))))
  | _ => s
  end.

(** Convert integer to 16-bit binary with spaces every 4 bits. *)
Definition toBinaryWithSpaces (num : Number) : string :=
  let binStr := padStart 16 "0" (toString num 2) in
  spaceEveryFour binStr.

(** Normalize address letters to uppercase. *)
Definition normalizeAddress (address : string) : string :=
  replace "0X" "0x" (toUpperCase address).

Section Main.

Context (cfg : Config) (names : RegisterNames) (client : Client).

(** Convert a Modbus register value to the correct endianness: for a 16-bit
    register, if LITTLE, swap lower and higher bytes. *)
Definition convertEndianness (value : Number) : Number :=
  if String.eqb (toUpperCase (ENDIANNESS cfg)) "LITTLE" then
    let lowerByte := bitAnd value (Num 255) in
    let upperByte := bitAnd (shiftRight value (Num 8)) (Num 255) in
    bitOr (shiftLeft lowerByte (Num 8)) upperByte
  else value.                  (* If BIG, do nothing *)

(** [NAMES && NAMES[addressHex]], then [return NAMES[addressHex]]: the name
    when the table is there and binds a non-empty one to the key.  (The key
    was normalized: its letters are uppercase but for one "x", so it names
    no property that an object inherits.) *)
Definition nameIn (NAMES : option (gmap string string)) (addressHex : string)
  : option string :=
  match NAMES with
  | Some table =>
      match table !! addressHex with
      | Some name => if String.eqb name EmptyString then None else Some name
      | None => None
      end
  | None => None
  end.

(** Look up a name in the relevant register-name object. *)
Definition getRegisterName (functionCode _addressHex : string) : string :=
  let addressHex := normalizeAddress _addressHex in
  let found :=
    if String.eqb functionCode "0x01" then nameIn (COIL_NAMES names) addressHex
    else if String.eqb functionCode "0x02"
         then nameIn (DISCRETE_INPUT_NAMES names) addressHex
    else if String.eqb functionCode "0x03"
         then nameIn (HOLDING_REGISTER_NAMES names) addressHex
    else if String.eqb functionCode "0x04"
         then nameIn (INPUT_REGISTER_NAMES names) addressHex
    else None in
  match found with
  | Some name => name
  | None => EmptyString
  end.

(** Prompt user for input: the next line typed, trimmed. *)
Definition askQuestion (question : string) : Async.t string :=
  emit (Asked question) ;;
  fun w =>
    match stdin w with
    | [] => (Pending, w)
    | answer :: rest =>
        (Return (trim answer), {| stdin := rest; trace := trace w |})
    end.

(** The data of a read response. *)
Inductive Data : Type :=
| Bits (data : list bool)
| Registers (data : list Number).

(** The rows of a coil or discrete-input read. *)
Definition bitRows (functionCode : string) (startAddress quantity : Number)
  (data : list bool) : list Row :=
  let bits := slice0 data quantity in   (* pick only the requested quantity *)
  imap (fun index boolVal =>
    let addressDec := add startAddress (Num (Z.of_nat index)) in
    let addressHex := toHex addressDec in
    let name := getRegisterName functionCode addressHex in
    let registerPrefix := if String.eqb functionCode "0x01" then "C" else "DI" in
    let registerID := registerPrefix ++ toString (add addressDec (Num 1)) 10 in
    BitRow registerID addressHex name boolVal) bits.

(** The rows of a holding- or input-register read. *)
Definition registerRows (functionCode : string) (startAddress : Number)
  (data : list Number) : list Row :=
  imap (fun index rawVal =>
    let addressDec := add startAddress (Num (Z.of_nat index)) in
    let addressHex := toHex addressDec in
    let name := getRegisterName functionCode addressHex in
    let actualValue := convertEndianness rawVal in
    let registerPrefix := if String.eqb functionCode "0x03" then "HR" else "IR" in
    let registerID := registerPrefix ++ toString (add addressDec (Num 1)) 10 in
    RegisterRow registerID addressHex name
      actualValue (toHex actualValue) (toBinaryWithSpaces actualValue)) data.

(** The read request of a function code and the response of the device to
    it ([None]: the [default] case of the switch). *)
Definition readRequest (functionCode : string) (startAddress quantity : Number)
  : option (Call * Response Data) :=
  if String.eqb functionCode "0x01" then          (* Read Coils *)
    Some (ReadCoils startAddress quantity,
          mapResponse Bits (readCoils client startAddress quantity))
  else if String.eqb functionCode "0x02" then     (* Read Discrete Inputs *)
    Some (ReadDiscreteInputs startAddress quantity,
          mapResponse Bits (readDiscreteInputs client startAddress quantity))
  else if String.eqb functionCode "0x03" then     (* Read Holding Registers *)
    Some (ReadHoldingRegisters startAddress quantity,
          mapResponse Registers
            (readHoldingRegisters client startAddress quantity))
  else if String.eqb functionCode "0x04" then     (* Read Input Registers *)
    Some (ReadInputRegisters startAddress quantity,
          mapResponse Registers
            (readInputRegisters client startAddress quantity))
  else None.

(** The first and second piece of the answer, when present and non-empty. *)
Definition piece (parts : list string) (i : nat) : option string :=
  match parts !! i with
  | Some s => if String.eqb s EmptyString then None else Some s
  | None => None
  end.

(** Handle Read request. *)
Definition handleRead (functionCode : string) : Async.t unit :=
  try_catch
    (let* addressQuantity :=
       askQuestion "Enter address [space] quantity (default=1): " in
     let parts := split_ws addressQuantity in
     (* If user didn't enter anything, default to address = 0 *)
     let addrStr := default "0" (piece parts 0) in
     (* If user didn't enter quantity, default to 1 *)
     let qtyStr := default (toString (DEFAULT_QUANTITY cfg) 10) (piece parts 1) in
     let startAddress := parseValue addrStr in
     let quantity := parseValue qtyStr in
     (* Perform the read based on function code *)
     match readRequest functionCode startAddress quantity with
     | None => console_error ["Unsupported read function code."]
     | Some (request, response) =>
         let* data := await request response in
         (* Repeat the request back to user *)
         console_log
           (dquote ++ default "undefined" (FUNCTION_NAMES functionCode)
            ++ dquote ++ " " ++ toString quantity 10 ++ " registers from "
            ++ toHex startAddress ++ ".") ;;
         (* the data are bits exactly when
            functionCode === "0x01" || functionCode === "0x02" *)
         match data with
         | Bits bits =>
             (* Coils / Discrete inputs (booleans) *)
             console_table (bitRows functionCode startAddress quantity bits)
         | Registers words =>
             (* Holding / Input registers (16-bit numbers) *)
             console_table (registerRows functionCode startAddress words)
         end
     end)
    (fun message => console_error ["Error reading data:"; message]).

(** Handle Write request. *)
Definition handleWrite (functionCode : string) : Async.t unit :=
  try_catch
    (let* addressValues :=
       askQuestion
         "Enter address [space] value [space] value ... (ex: 10 1 1 0 1): " in
     let parts := split_ws addressValues in
     if (length parts <? 2)%nat then
       console_error ["You must provide at least an address and one value."]
     else
       let startAddress := parseValue (default EmptyString (parts !! 0%nat)) in
       let values := map parseValue (drop 1 parts) in
       if String.eqb functionCode "0x0f" then
         (* Write Multiple Coils:
            values are booleans, so interpret any nonzero as true *)
         let booleanVals := map (fun val => negb (Number_eqb val (Num 0))) values in
         await (WriteCoils startAddress booleanVals)
               (writeCoils client startAddress booleanVals) ;;
         console_log "Successfully wrote multiple coils."
       else if String.eqb functionCode "0x10" then
         (* Write Multiple Holding Registers *)
         let registerVals := map convertEndianness values in
         await (WriteRegisters startAddress registerVals)
               (writeRegisters client startAddress registerVals) ;;
         console_log "Successfully wrote multiple holding registers."
       else
         console_error ["Unsupported write function code."])
    (fun message => console_error ["Error writing data:"; message]).

(** One round of the main interactive loop: the menu, the function code,
    the handler.  [false] when the operator quits; the loop repeats the
    round until then. *)
Definition mainLoopRound : Async.t bool :=
  console_log (String (chr 10) "Choose an action (or type 'quit' to exit):") ;;
  console_log "READ:" ;;
  console_log "  0x01 -> Coils" ;;
  console_log "  0x02 -> Discrete Inputs" ;;
  console_log "  0x03 -> Holding Registers" ;;
  console_log "  0x04 -> Input Registers" ;;
  console_log "WRITE:" ;;
  console_log "  0x0F -> Multiple Coils" ;;
  console_log "  0x10 -> Multiple Holding Registers" ;;
  let* answer := askQuestion "Enter function code: " in
  let funcCode := toLowerCase answer in
  if String.eqb funcCode "quit" then
    console_log "Exiting..." ;; ret false
  else if String.eqb funcCode "0x01" || String.eqb funcCode "0x02"
          || String.eqb funcCode "0x03" || String.eqb funcCode "0x04" then
    handleRead funcCode ;; ret true
  else if String.eqb funcCode "0x0f" || String.eqb funcCode "0x10" then
    handleWrite funcCode ;; ret true
  else
    console_error ["Unrecognized function code. Please try again."] ;; ret true.

(** The [while (true)] of the main loop, for at most [rounds] rounds:
    [true] once the operator has quit, [false] when the rounds are used up
    and the loop would go on. *)
Fixpoint mainLoopWhile (rounds : nat) : Async.t bool :=
  match rounds with
  | O => ret false
  | S k =>
      let* again := mainLoopRound in
      if again then mainLoopWhile k else ret true
  end.

End Main.

(** * Vocabulary of the properties *)

(** ** The parser, in the words of the specification *)

(** The place of a character in a string, counted from [from]. *)
Fixpoint placeOf (c : ascii) (s : string) (from : Z) : option Z :=
  match s with
  | EmptyString => None
  | String d r => if Ascii.eqb c d then Some from else placeOf c r (from + 1)
  end.

(** The digits of the three bases, listed: a digit is worth its place in
    the list, in either case of the letters. *)
Definition hexDigit (c : ascii) : option Z :=
  match placeOf c "0123456789abcdef" 0 with
  | Some d => Some d
  | None => placeOf c "0123456789ABCDEF" 0
  end.

Definition digitIn (base : Z) (c : ascii) : option Z :=
  match hexDigit c with
  | Some d => if d <? base then Some d else None
  | None => None
  end.

(** The longest run of digits of the base at the head of a string. *)
Fixpoint numericPrefix (base : Z) (s : string) : string :=
  match s with
  | EmptyString => EmptyString
  | String c r =>
      match digitIn base c with
      | Some _ => String c (numericPrefix base r)
      | None => EmptyString
      end
  end.

(** The number written by a string of digits, after the digits [acc]. *)
Fixpoint valueOf (base : Z) (s : string) (acc : Z) : Z :=
  match s with
  | EmptyString => acc
  | String c r => valueOf base r (acc * base + default 0 (digitIn base c))
  end.

(** The base a token selects and the text to be read in it: rule 1, a
    lowercase "b" and the remainder in base 2; rule 2, "0x" or "0X" and
    base 16, the prefix consumed; rule 3, base 10. *)
Definition selected (token : string) : Z * string :=
  match token with
  | String "b" rest => (2, rest)
  | String "0" (String "x" rest) => (16, rest)
  | String "0" (String "X" rest) => (16, rest)
  | _ => (10, token)
  end.

(** The parser of section 4.1 read strictly: the text is a number when it
    is a non-empty string of digits of the selected base, and a parse
    failure otherwise. *)
Definition parse_strict (token : string) : Number :=
  let '(base, text) := selected token in
  if negb (String.eqb text EmptyString)
     && String.eqb (numericPrefix base text) text
  then Num (valueOf base text 0)
  else NaN.

(** The bases of the parser. *)
Definition supported (R : Z) : Prop := R = 2 \/ R = 10 \/ R = 16.

(** What [parseInt] reads once white space, sign and prefix are behind:
    the digits at the head of the text are the number, or its absence. *)
Definition readDigits (R : Z) (s : string) : Number :=
  match digitsPrefix R s with
  | [] => NaN
  | ds => Num (mathInt R ds)
  end.

(** A text that starts with neither white space nor a sign. *)
Definition plainStart (text : string) : Prop :=
  match text with
  | EmptyString => True
  | String c _ => isWhiteSpace c = false /\ c <> "-"%char /\ c <> "+"%char
  end.

(** The coercion of a value to a coil: any nonzero is true. *)
Definition nonzero (val : Number) : bool := negb (Number_eqb val (Num 0)).

(** ** Safe integers *)

(** The integers a Number holds one by one, [Number.isSafeInteger]: on
    them the arithmetic, the parses and the written forms of the embedding
    are those of JavaScript. *)
Definition safeInteger (z : Z) : Prop := - 2 ^ 53 < z < 2 ^ 53.

Definition safeNumber (v : Number) : Prop :=
  match v with
  | NaN => True
  | Num z => safeInteger z
  end.

(** ** The codec *)

(** An unsigned 16-bit value. *)
Definition in_uint16 (v : Number) : Prop :=
  exists y : Z, v = Num y /\ 0 <= y <= 65535.

Definition little (c : Config) : Prop :=
  toUpperCase (ENDIANNESS c) = "LITTLE".

(** The configuration with the other byte order. *)
Definition config_little : Config :=
  {| SLAVE_ID := Num 1; DEFAULT_QUANTITY := Num 1; ENDIANNESS := "LITTLE" |}.

(** ** The handlers *)

Definition readQuestion : string :=
  "Enter address [space] quantity (default=1): ".

Definition writeQuestion : string :=
  "Enter address [space] value [space] value ... (ex: 10 1 1 0 1): ".

(** The start address and the quantity of a read, from the line typed. *)
Definition readArguments (cfg : Config) (line : string) : Number * Number :=
  let parts := split_ws (trim line) in
  (parseValue (default "0" (piece parts 0)),
   parseValue (default (toString (DEFAULT_QUANTITY cfg) 10) (piece parts 1))).

(** The pieces of the line typed for a write. *)
Definition writeParts (line : string) : list string := split_ws (trim line).

(** The start address and the values of a write, from the line typed. *)
Definition writeArguments (line : string) : Number * list Number :=
  (parseValue (default EmptyString (writeParts line !! 0%nat)),
   map parseValue (drop 1 (writeParts line))).

(** The line that repeats a read request back to the operator. *)
Definition readEcho (functionCode : string) (startAddress quantity : Number)
  : string :=
  dquote ++ default "undefined" (FUNCTION_NAMES functionCode)
  ++ dquote ++ " " ++ toString quantity 10 ++ " registers from "
  ++ toHex startAddress ++ ".".

(** The requests sent to the device, the tables shown and the errors
    reported in a trace. *)
Definition calls (evs : list Event) : list Call :=
  omap (fun e => match e with Called c => Some c | _ => None end) evs.

Definition tables (evs : list Event) : list (list Row) :=
  omap (fun e => match e with Table rows => Some rows | _ => None end) evs.

Definition errors (evs : list Event) : list (list string) :=
  omap (fun e => match e with Error args => Some args | _ => None end) evs.

(** A report of invalid input for a token that does not parse: an error
    is shown and nothing is sent to the device. *)
Definition reportsInvalidInput (evs : list Event) : Prop :=
  calls evs = [] /\ errors evs <> [].

(** The reports of the three kinds of error. *)
Definition UnsupportedRead : Event :=
  Error ["Unsupported read function code."].
Definition UnsupportedWrite : Event :=
  Error ["Unsupported write function code."].
Definition InvalidInput : Event :=
  Error ["You must provide at least an address and one value."].
Definition ReadTransportError (message : string) : Event :=
  Error ["Error reading data:"; message].
Definition WriteTransportError (message : string) : Event :=
  Error ["Error writing data:"; message].

Definition readCode (functionCode : string) : Prop :=
  functionCode = "0x01" \/ functionCode = "0x02"
  \/ functionCode = "0x03" \/ functionCode = "0x04".

(** The request that belongs to each read function code. *)
Definition readCall (functionCode : string) (address quantity : Number)
  : option Call :=
  if String.eqb functionCode "0x01" then Some (ReadCoils address quantity)
  else if String.eqb functionCode "0x02"
       then Some (ReadDiscreteInputs address quantity)
  else if String.eqb functionCode "0x03"
       then Some (ReadHoldingRegisters address quantity)
  else if String.eqb functionCode "0x04"
       then Some (ReadInputRegisters address quantity)
  else None.

(** The read primitive of the function code fails with a message. *)
Definition readFails (client : Client) (functionCode : string)
  (address quantity : Number) (message : string) : Prop :=
  (functionCode = "0x01" /\ readCoils client address quantity = Reject message)
  \/ (functionCode = "0x02"
      /\ readDiscreteInputs client address quantity = Reject message)
  \/ (functionCode = "0x03"
      /\ readHoldingRegisters client address quantity = Reject message)
  \/ (functionCode = "0x04"
      /\ readInputRegisters client address quantity = Reject message).

(** The read primitive of a register class answers with [data]. *)
Definition registersRead (client : Client) (functionCode : string)
  (address quantity : Number) (data : list Number) : Prop :=
  (functionCode = "0x03"
   /\ readHoldingRegisters client address quantity = Resolve data)
  \/ (functionCode = "0x04"
      /\ readInputRegisters client address quantity = Resolve data).

(** The read primitive of a bit class answers with [data]. *)
Definition bitsRead (client : Client) (functionCode : string)
  (address quantity : Number) (data : list bool) : Prop :=
  (functionCode = "0x01" /\ readCoils client address quantity = Resolve data)
  \/ (functionCode = "0x02"
      /\ readDiscreteInputs client address quantity = Resolve data).

(** The display prefix of the register class of a read function code. *)
Definition classPrefix (functionCode : string) : string :=
  if String.eqb functionCode "0x01" then "C"
  else if String.eqb functionCode "0x02" then "DI"
  else if String.eqb functionCode "0x03" then "HR"
  else "IR".

(** The display form of an address: "0x" and four uppercase hex digits. *)
Definition hexDigitUpper (d : Z) : ascii :=
  if d <? 10 then chr (48 + d) else chr (55 + d).

Definition hex4 (n : Z) : string :=
  String "0" (String "x"
    (String (hexDigitUpper (n / 4096 mod 16))
      (String (hexDigitUpper (n / 256 mod 16))
        (String (hexDigitUpper (n / 16 mod 16))
          (String (hexDigitUpper (n mod 16)) EmptyString))))).

(** A property of the integers from [n] on, [count] of them. *)
Fixpoint allFrom (count : nat) (n : Z) (P : Z -> bool) : bool :=
  match count with
  | O => true
  | S k => P n && allFrom k (n + 1) P
  end.

(** ** The resolver *)

(** The name table of the register class of a read function code. *)
Definition tableFor (names : RegisterNames) (functionCode : string)
  : option (gmap string string) :=
  if String.eqb functionCode "0x01" then COIL_NAMES names
  else if String.eqb functionCode "0x02" then DISCRETE_INPUT_NAMES names
  else if String.eqb functionCode "0x03" then HOLDING_REGISTER_NAMES names
  else if String.eqb functionCode "0x04" then INPUT_REGISTER_NAMES names
  else None.

(** Resolution that does not depend on how the keys of the table are
    written: whatever key of the table normalizes to the display form of
    the address, the name bound to it is the one returned. *)
Definition resolves_any_casing (names : RegisterNames) (functionCode : string)
  (address : Z) : Prop :=
  forall (table : gmap string string) (key name : string),
    tableFor names functionCode = Some table ->
    table !! key = Some name ->
    normalizeAddress key = toHex (Num address) ->
    getRegisterName names functionCode (toHex (Num address)) = name.

(** A table as the enum scraper writes it from a header that spells its
    addresses with lowercase hex digits. *)
Definition lowercase_names : RegisterNames :=
  {| DISCRETE_INPUT_NAMES := None; COIL_NAMES := None;
     HOLDING_REGISTER_NAMES := Some {["0x000a" := "SETPOINT"]};
     INPUT_REGISTER_NAMES := None |}.

(** ** Texts and requests *)

(** A text without white space: one piece for [split]. *)
Fixpoint noWhiteSpace (s : string) : bool :=
  match s with
  | EmptyString => true
  | String c r => negb (isWhiteSpace c) && noWhiteSpace r
  end.

(** A text without its spaces. *)
Fixpoint dropSpaces (s : string) : string :=
  match s with
  | EmptyString => EmptyString
  | String c r =>
      if Ascii.eqb c " " then dropSpaces r else String c (dropSpaces r)
  end.

Definition isReadCall (c : Call) : bool :=
  match c with
  | ReadCoils _ _ | ReadDiscreteInputs _ _
  | ReadHoldingRegisters _ _ | ReadInputRegisters _ _ => true
  | WriteCoils _ _ | WriteRegisters _ _ => false
  end.

Definition isWriteCall (c : Call) : bool := negb (isReadCall c).

(** The function code the main loop makes of what was typed. *)
Definition typedCode (typed : string) : string := toLowerCase (trim typed).

Definition writeCode (functionCode : string) : Prop :=
  functionCode = "0x0f" \/ functionCode = "0x10".

(** ** Devices and name tables of the examples *)

Definition no_names : RegisterNames :=
  {| DISCRETE_INPUT_NAMES := None; COIL_NAMES := None;
     HOLDING_REGISTER_NAMES := None; INPUT_REGISTER_NAMES := None |}.

(** The holding registers of the example session of the README. *)
Definition readme_names : RegisterNames :=
  {| DISCRETE_INPUT_NAMES := None; COIL_NAMES := None;
     HOLDING_REGISTER_NAMES :=
       Some (<["0x0004" := "CALIBRATE_SENSOR"]>
            (<["0x0005" := "SYS_AUTOSTART_TIME"]>
            (<["0x0006" := "SYS_AUTOSTOP_TIME"]>
            (<["0x0007" := "SYS_SAVE_SETTINGS"]> ∅))));
     INPUT_REGISTER_NAMES := None |}.

Definition readme_device : Client :=
  {| readCoils := fun _ _ => Reject "Timed out";
     readDiscreteInputs := fun _ _ => Reject "Timed out";
     readHoldingRegisters := fun _ _ =>
       Resolve [Num 0; Num 65535; Num 65535; Num 255];
     readInputRegisters := fun _ _ => Reject "Timed out";
     writeCoils := fun _ _ => Resolve tt;
     writeRegisters := fun _ _ => Resolve tt |}.

(** A device that answers every read with one byte of coils or two
    registers, whatever the quantity asked, and accepts every write. *)
Definition bench_device : Client :=
  {| readCoils := fun _ _ =>
       Resolve [true; false; true; true; false; false; false; false];
     readDiscreteInputs := fun _ _ =>
       Resolve [false; true; false; false; false; false; false; false];
     readHoldingRegisters := fun _ _ => Resolve [Num 1; Num 2];
     readInputRegisters := fun _ _ => Resolve [Num 258; Num 2];
     writeCoils := fun _ _ => Resolve tt;
     writeRegisters := fun _ _ => Resolve tt |}.

(** ** The main loop *)

(** How a round ends: it returns with fewer lines left to read, saying
    goodbye when it is the last, or it waits with no line left.  It never
    throws. *)
Definition roundSettled (before : World) (end_ : Outcome bool * World)
  : Prop :=
  match fst end_ with
  | Return again =>
      (length (stdin (snd end_)) < length (stdin before))%nat
      /\ (again = false -> last (trace (snd end_)) = Some (Log "Exiting..."))
  | Pending => stdin (snd end_) = []
  | Throw _ => False
  end.

(** How the loop ends: on a quit, having said goodbye, or waiting with no
    line left.  It never throws. *)
Definition loopSettled (end_ : Outcome bool * World) : Prop :=
  match fst end_ with
  | Return quit =>
      quit = true /\ last (trace (snd end_)) = Some (Log "Exiting...")
  | Pending => stdin (snd end_) = []
  | Throw _ => False
  end.

(** A device that cannot be reached: every request fails. *)
Definition offline_device : Client :=
  {| readCoils := fun _ _ => Reject "Port Not Open";
     readDiscreteInputs := fun _ _ => Reject "Port Not Open";
     readHoldingRegisters := fun _ _ => Reject "Port Not Open";
     readInputRegisters := fun _ _ => Reject "Port Not Open";
     writeCoils := fun _ _ => Reject "Port Not Open";
     writeRegisters := fun _ _ => Reject "Port Not Open" |}.

(** * Properties *)

(** ** Proof automation *)

(** Case analysis on the 256 characters. *)
Ltac each_char c := destruct c as [[] [] [] [] [] [] [] []].

(** Runs a handler from the empty trace, down to the request. *)
Ltac run_handler :=
  cbv beta iota zeta
    delta [run handleRead handleWrite try_catch bind
           askQuestion emit ret throw await console_error console_log
           console_table stdin trace readArguments writeArguments
           writeParts fst snd app].

(** Runs a handler from any trace. *)
Ltac step_handler :=
  cbv beta iota zeta
    delta [handleRead handleWrite try_catch bind askQuestion emit ret throw
           await console_error console_log console_table stdin trace].

(** Runs one round of the main loop, down to the handler. *)
Ltac step_round :=
  cbv beta iota zeta
    delta [events run mainLoopRound bind emit console_log console_error
           askQuestion ret stdin trace app].

(** Decides the comparisons of a function code given in full. *)
Ltac decide_code :=
  cbv beta iota zeta delta [String.eqb Ascii.eqb Bool.eqb orb].

(** Runs the main loop from the empty trace. *)
Ltac step_loop :=
  cbv beta iota zeta
    delta [mainLoopWhile mainLoopRound bind emit console_log console_error
           askQuestion ret stdin trace app].

(** ** The built-ins and the formatter on examples *)

Example parseInt_binary : parseInt "1010" 2 = Num 10.
Proof. reflexivity. Qed.

Example parseInt_hex : parseInt "0xFF" 16 = Num 255.
Proof. reflexivity. Qed.

Example parseInt_signed : parseInt "  -42abc" 10 = Num (-42).
Proof. reflexivity. Qed.

Example parseInt_bare_prefix : parseInt "0x" 16 = NaN.
Proof. reflexivity. Qed.

Example toString_hex : toString (Num 65535) 16 = "ffff".
Proof. reflexivity. Qed.

Example toString_negative : toString (Num (-255)) 16 = "-ff".
Proof. reflexivity. Qed.

Example split_ws_pieces :
  split_ws (trim "  10   1 1 0  ") = ["10"; "1"; "1"; "0"].
Proof. reflexivity. Qed.

Example split_ws_empty : split_ws EmptyString = [EmptyString].
Proof. reflexivity. Qed.

Example toHex_4 : toHex (Num 4) = "0x0004".
Proof. reflexivity. Qed.

Example toHex_65535 : toHex (Num 65535) = "0xFFFF".
Proof. reflexivity. Qed.

Example toBinaryWithSpaces_255 :
  toBinaryWithSpaces (Num 255) = "0000 0000 1111 1111 ".
Proof. reflexivity. Qed.

Example convertEndianness_swap :
  convertEndianness config_little (Num 258) = Num 513.
Proof. reflexivity. Qed.

(** ** The endianness codec *)

Section Endianness.

Context (cfg : Config).

Lemma ToInt32_range (v : Number) : - 2 ^ 31 <= ToInt32 v < 2 ^ 31.
Proof.
  destruct v as [|z]; simpl; [lia|].
  pose proof (Z.mod_pos_bound (z + 2 ^ 31) (2 ^ 32)). lia.
Qed.

Lemma ToInt32_small (z : Z) :
  - 2 ^ 31 <= z < 2 ^ 31 -> ToInt32 (Num z) = z.
Proof.
  intros Hz. unfold ToInt32. rewrite Z.mod_small; lia.
Qed.

Lemma lor_high_low (a b : Z) :
  0 <= b < 256 -> Z.lor (a * 256) b = a * 256 + b.
Proof.
  intros Hb.
  assert (Hland : Z.land (a * 256) b = 0).
  { apply Z.bits_inj'. intros n Hn.
    rewrite Z.land_spec, Z.bits_0.
    change 256 with (2 ^ 8). rewrite <- Z.shiftl_mul_pow2 by lia.
    destruct (Z.ltb_spec n 8) as [Hlt|Hge].
    - rewrite Z.shiftl_spec_low by lia. reflexivity.
    - rewrite <- (Z.mod_small b (2 ^ 8)) by (change (2 ^ 8) with 256; lia).
      rewrite Z.mod_pow2_bits_high by lia. apply andb_false_r. }
  pose proof (Z.add_lor_land (a * 256) b). lia.
Qed.

(** The byte swap on the 32-bit integer of the value, in arithmetic. *)
Lemma convertEndianness_little (v : Number) :
  little cfg ->
  convertEndianness cfg v =
    Num (ToInt32 v mod 256 * 256 + ToInt32 v / 256 mod 256).
Proof.
  unfold little, convertEndianness. intros ->. simpl String.eqb. cbv iota.
  pose proof (ToInt32_range v) as Hr.
  set (t := ToInt32 v) in *.
  assert (Hlo : 0 <= t mod 256 < 256) by (apply Z.mod_pos_bound; lia).
  assert (Hup : 0 <= t / 256 mod 256 < 256) by (apply Z.mod_pos_bound; lia).
  assert (H255 : ToInt32 (Num 255) = 255) by reflexivity.
  assert (Hsh : ToUint32 (Num 8) mod 32 = 8) by reflexivity.
  unfold bitOr, bitAnd, shiftLeft, shiftRight.
  fold t. rewrite H255, Hsh.
  change 255 with (Z.ones 8). rewrite !Z.land_ones by lia.
  rewrite Z.shiftr_div_pow2 by lia.
  change (2 ^ 8) with 256.
  assert (Hdiv : - 2 ^ 31 <= t / 256 < 2 ^ 31).
  { split.
    - apply Z.div_le_lower_bound; lia.
    - apply Z.div_lt_upper_bound; lia. }
  rewrite (ToInt32_small (t / 256)) by exact Hdiv.
  rewrite (ToInt32_small (t mod 256)) by lia.
  rewrite Z.shiftl_mul_pow2 by lia. change (2 ^ 8) with 256.
  rewrite (ToInt32_small (t mod 256 * 256)) by lia.
  rewrite (ToInt32_small (t mod 256 * 256)) by lia.
  rewrite (ToInt32_small (t / 256 mod 256)) by lia.
  rewrite lor_high_low by lia. reflexivity.
Qed.

Lemma convertEndianness_big (v : Number) :
  ~ little cfg -> convertEndianness cfg v = v.
Proof.
  unfold little, convertEndianness. intros Hne.
  destruct (String.eqb_spec (toUpperCase (ENDIANNESS cfg)) "LITTLE");
    [contradiction | reflexivity].
Qed.

Lemma little_dec : little cfg \/ ~ little cfg.
Proof.
  unfold little.
  destruct (String.eqb_spec (toUpperCase (ENDIANNESS cfg)) "LITTLE"); auto.
Qed.

Lemma convertEndianness_little_uint16 (v : Number) :
  little cfg -> in_uint16 (convertEndianness cfg v).
Proof.
  intros Hl. rewrite convertEndianness_little by exact Hl.
  eexists; split; [reflexivity|].
  pose proof (Z.mod_pos_bound (ToInt32 v) 256).
  pose proof (Z.mod_pos_bound (ToInt32 v / 256) 256). lia.
Qed.

End Endianness.

(** C4. The endianness transform is an involution on [0, 65535] in both
    modes: applied twice it gives the value back; with LITTLE it swaps the
    low and the high byte, [((x & 0xFF) << 8) | ((x >> 8) & 0xFF)], and
    with BIG it is the identity. *)
Theorem convertEndianness_involution (cfg : Config) (x : Z) :
  0 <= x <= 65535 ->
  convertEndianness cfg (convertEndianness cfg (Num x)) = Num x
  /\ (ENDIANNESS cfg = "LITTLE" ->
      convertEndianness cfg (Num x) =
        Num (Z.lor (Z.shiftl (Z.land x 255) 8) (Z.land (Z.shiftr x 8) 255)))
  /\ (ENDIANNESS cfg = "BIG" -> convertEndianness cfg (Num x) = Num x).
Proof.
  intros Hx.
  assert (Hswap : little cfg ->
            convertEndianness cfg (Num x) = Num (x mod 256 * 256 + x / 256)).
  { intros Hl. rewrite convertEndianness_little by exact Hl.
    rewrite ToInt32_small by lia.
    rewrite (Z.mod_small (x / 256) 256); [reflexivity|].
    split; [apply Z.div_pos; lia | apply Z.div_lt_upper_bound; lia]. }
  split; [|split].
  - destruct (little_dec cfg) as [Hl|Hb].
    + rewrite Hswap by exact Hl.
      rewrite convertEndianness_little by exact Hl.
      pose proof (Z.mod_pos_bound x 256).
      assert (0 <= x / 256 < 256)
        by (split; [apply Z.div_pos; lia | apply Z.div_lt_upper_bound; lia]).
      rewrite ToInt32_small by lia.
      f_equal.
      replace ((x mod 256 * 256 + x / 256) mod 256) with (x / 256)
        by (rewrite Z.add_comm, Z.mod_add, Z.mod_small; lia).
      replace ((x mod 256 * 256 + x / 256) / 256 mod 256) with (x mod 256).
      * pose proof (Z.div_mod x 256). lia.
      * rewrite Z.add_comm, Z.div_add by lia.
        rewrite (Z.div_small (x / 256)) by lia.
        rewrite Z.add_0_l, Z.mod_mod by lia. reflexivity.
    + rewrite !convertEndianness_big by exact Hb. reflexivity.
  - intros HL. rewrite Hswap by (unfold little; rewrite HL; reflexivity).
    f_equal.
    change 255 with (Z.ones 8). rewrite !Z.land_ones by lia.
    rewrite Z.shiftr_div_pow2, Z.shiftl_mul_pow2 by lia.
    change (2 ^ 8) with 256.
    rewrite (Z.mod_small (x / 256) 256)
      by (split; [apply Z.div_pos; lia | apply Z.div_lt_upper_bound; lia]).
    symmetry. apply lor_high_low.
    split; [apply Z.div_pos; lia | apply Z.div_lt_upper_bound; lia].
  - intros HB. apply convertEndianness_big. unfold little. rewrite HB.
    discriminate.
Qed.

Lemma convertEndianness_involution_witness :
  convertEndianness config_little (convertEndianness config_little (Num 258))
  = Num 258.
Proof.
  apply (proj1 (convertEndianness_involution config_little 258
                  ltac:(lia))).
Defined.

(** C8, as stated, fails: with BIG the transform is the identity, so a
    value above 65535 (one typed for a register write) comes out as it
    went in. *)
Lemma convertEndianness_big_not_masked :
  0 <= 70000 /\ ~ in_uint16 (convertEndianness config (Num 70000)).
Proof.
  split; [lia|].
  intros [y [Hy Hr]]. vm_compute in Hy. injection Hy as <-. lia.
Qed.

(** C8, amended. With LITTLE the result of the transform lies in
    [0, 65535] whatever the input; with BIG the transform is the identity,
    so the result lies in [0, 65535] when the input does. *)
Theorem convertEndianness_uint16 (cfg : Config) (v : Number) :
  little cfg \/ in_uint16 v ->
  in_uint16 (convertEndianness cfg v)
  /\ (~ little cfg -> convertEndianness cfg v = v).
Proof.
  intros H. split; [|apply convertEndianness_big].
  destruct (little_dec cfg) as [Hl|Hb].
  - apply convertEndianness_little_uint16, Hl.
  - rewrite convertEndianness_big by exact Hb.
    destruct H as [Hl|Hv]; [contradiction | exact Hv].
Qed.

Lemma convertEndianness_uint16_witness :
  in_uint16 (convertEndianness config_little (Num 70000)).
Proof.
  apply (proj1 (convertEndianness_uint16 config_little (Num 70000)
                  (or_introl eq_refl))).
Defined.

(** ** The value parser *)

Section Parser.

Lemma radixDigit_digitIn_2 (c : ascii) : radixDigit 2 c = digitIn 2 c.
Proof. each_char c; reflexivity. Qed.

Lemma radixDigit_digitIn_10 (c : ascii) : radixDigit 10 c = digitIn 10 c.
Proof. each_char c; reflexivity. Qed.

Lemma radixDigit_digitIn_16 (c : ascii) : radixDigit 16 c = digitIn 16 c.
Proof. each_char c; reflexivity. Qed.

Lemma radixDigit_digitIn (R : Z) (c : ascii) :
  supported R -> radixDigit R c = digitIn R c.
Proof.
  intros [->|[->| ->]];
    auto using radixDigit_digitIn_2, radixDigit_digitIn_10,
      radixDigit_digitIn_16.
Qed.

(** A digit is neither white space nor a sign. *)
Lemma digit_plain (c : ascii) (d : Z) :
  hexDigit c = Some d ->
  isWhiteSpace c = false /\ c <> "-"%char /\ c <> "+"%char.
Proof.
  each_char c; intros H; try discriminate H; repeat split; discriminate.
Qed.

Lemma digitIn_hexDigit (R : Z) (c : ascii) (d : Z) :
  digitIn R c = Some d -> hexDigit c = Some d.
Proof.
  unfold digitIn. destruct (hexDigit c) as [e|]; [|discriminate].
  destruct (e <? R); [congruence | discriminate].
Qed.

Lemma mathInt_valueOf (R : Z) (s : string) (acc : Z) :
  supported R ->
  fold_left (fun a d => a * R + d) (digitsPrefix R s) acc
  = valueOf R (numericPrefix R s) acc.
Proof.
  intros HR. revert acc.
  induction s as [|c r IH]; intros acc; simpl; [reflexivity|].
  rewrite (radixDigit_digitIn R c HR).
  destruct (digitIn R c) as [d|] eqn:Hd; simpl; [|reflexivity].
  rewrite Hd. simpl. apply IH.
Qed.

Lemma digitsPrefix_nil (R : Z) (s : string) :
  supported R ->
  digitsPrefix R s = [] <-> numericPrefix R s = EmptyString.
Proof.
  intros HR. destruct s as [|c r]; simpl; [tauto|].
  rewrite (radixDigit_digitIn R c HR).
  destruct (digitIn R c); split; intros H; discriminate H || reflexivity.
Qed.

Lemma readDigits_value (R : Z) (s : string) :
  supported R -> numericPrefix R s <> EmptyString ->
  readDigits R s = Num (valueOf R (numericPrefix R s) 0).
Proof.
  intros HR Hne. unfold readDigits.
  pose proof (mathInt_valueOf R s 0 HR) as Hv.
  pose proof (digitsPrefix_nil R s HR) as Hnil.
  unfold mathInt. destruct (digitsPrefix R s) as [|d ds].
  - exfalso. apply Hne, Hnil. reflexivity.
  - rewrite Hv. reflexivity.
Qed.

Lemma readDigits_NaN (R : Z) (s : string) :
  supported R -> readDigits R s = NaN -> numericPrefix R s = EmptyString.
Proof.
  intros HR. unfold readDigits.
  pose proof (digitsPrefix_nil R s HR) as Hnil.
  destruct (digitsPrefix R s); [intros _; apply Hnil; reflexivity|].
  discriminate.
Qed.

Lemma parseInt_hex_prefixed (x : ascii) (text : string) :
  x = "x"%char \/ x = "X"%char ->
  parseInt (String "0" (String x text)) 16 = readDigits 16 text.
Proof.
  intros [->| ->]; unfold parseInt, readDigits; simpl;
    destruct (digitsPrefix 16 text) as [|d ds]; try reflexivity;
    rewrite Z.mul_1_l; reflexivity.
Qed.

(** Before a digit there is neither white space nor a sign to read. *)
Lemma parseInt_leading_digit (R : Z) (s : string) :
  R = 2 \/ R = 10 ->
  numericPrefix R s <> EmptyString ->
  parseInt s R = readDigits R s.
Proof.
  intros HR Hne. destruct s as [|c r]; [contradiction Hne; reflexivity|].
  simpl in Hne. destruct (digitIn R c) as [d|] eqn:Hd; [|contradiction Hne; reflexivity].
  apply digitIn_hexDigit, digit_plain in Hd. destruct Hd as (Hws & Hm & Hp).
  unfold parseInt, readDigits. simpl trimStart. rewrite Hws.
  assert (Hsign : stripSign (String c r) = (1, String c r)).
  { unfold stripSign. revert Hm Hp. clear. each_char c; intros Hm Hp;
      try reflexivity; exfalso; auto. }
  rewrite Hsign.
  destruct HR as [->| ->];
    cbv beta iota zeta
      delta [Z.ltb Z.eqb Pos.eqb Z.compare Pos.compare Pos.compare_cont orb];
    destruct (digitsPrefix _ (String c r)) as [|e es]; try reflexivity;
    rewrite Z.mul_1_l; reflexivity.
Qed.

(** The rules of the parser select the base and the text as [selected]
    does. *)
Lemma prefix_empty (s : string) : String.prefix EmptyString s = true.
Proof. destruct s; reflexivity. Qed.

Lemma parseValue_selected (token : string) :
  parseValue token =
    (let '(R, text) := selected token in
     if R =? 16 then readDigits 16 text else parseInt text R).
Proof.
  destruct token as [|c r]; [reflexivity|].
  each_char c; try reflexivity.
  - unfold parseValue, startsWith. simpl. rewrite prefix_empty. reflexivity.
  - destruct r as [|c2 r2]; [reflexivity|].
    each_char c2; try reflexivity;
      unfold parseValue, startsWith; simpl String.prefix;
      rewrite prefix_empty; simpl orb; cbv iota.
    + apply (parseInt_hex_prefixed "X"). auto.
    + apply (parseInt_hex_prefixed "x"). auto.
Qed.

Lemma selected_supported (token : string) (R : Z) (text : string) :
  selected token = (R, text) -> supported R.
Proof.
  unfold supported. destruct token as [|c r]; simpl.
  - intros [= <- <-]. auto.
  - each_char c; try (intros [= <- <-]; auto).
    destruct r as [|c2 r2]; [intros [= <- <-]; auto|].
    each_char c2; intros [= <- <-]; auto.
Qed.

Lemma parseValue_prefix_value (token : string) (R : Z) (text : string) :
  selected token = (R, text) ->
  numericPrefix R text <> EmptyString ->
  parseValue token = Num (valueOf R (numericPrefix R text) 0).
Proof.
  intros Hsel Hne. pose proof (selected_supported _ _ _ Hsel) as HR.
  rewrite parseValue_selected, Hsel.
  destruct HR as [->|[->| ->]]; simpl.
  - rewrite parseInt_leading_digit by auto.
    apply readDigits_value; [left; reflexivity | exact Hne].
  - rewrite parseInt_leading_digit by auto.
    apply readDigits_value; [right; left; reflexivity | exact Hne].
  - apply readDigits_value; [right; right; reflexivity | exact Hne].
Qed.

Lemma parseValue_NaN_no_digit (token : string) (R : Z) (text : string) :
  selected token = (R, text) ->
  parseValue token = NaN ->
  numericPrefix R text = EmptyString.
Proof.
  intros Hsel HNaN.
  destruct (string_dec (numericPrefix R text) EmptyString) as [He|Hne];
    [exact He|].
  rewrite (parseValue_prefix_value _ _ _ Hsel Hne) in HNaN. discriminate.
Qed.

Lemma stripSign_plain (c : ascii) (r : string) :
  c <> "-"%char -> c <> "+"%char -> stripSign (String c r) = (1, String c r).
Proof.
  unfold stripSign. each_char c; intros Hm Hp; try reflexivity;
    exfalso; auto.
Qed.

(** No digit where the number should start: the parse fails. *)
Lemma parseValue_no_digit (token : string) (R : Z) (text : string) :
  selected token = (R, text) ->
  plainStart text ->
  numericPrefix R text = EmptyString ->
  parseValue token = NaN.
Proof.
  intros Hsel Hplain Hnone.
  pose proof (selected_supported _ _ _ Hsel) as HR.
  apply (digitsPrefix_nil R text HR) in Hnone.
  rewrite parseValue_selected, Hsel.
  assert (Hread : readDigits R text = NaN)
    by (unfold readDigits; rewrite Hnone; reflexivity).
  destruct HR as [->|[->| ->]]; [| |exact Hread];
    change (if _ =? 16 then readDigits 16 text else parseInt text ?R)
      with (parseInt text R);
    (destruct text as [|c r]; [reflexivity|]);
    destruct Hplain as (Hws & Hm & Hp);
    unfold parseInt; simpl trimStart; rewrite Hws;
    rewrite (stripSign_plain c r Hm Hp);
    cbv beta iota zeta
      delta [Z.ltb Z.eqb Pos.eqb Z.compare Pos.compare Pos.compare_cont orb];
    rewrite Hnone; reflexivity.
Qed.

End Parser.

Lemma selected_hex (token text : string) :
  selected token = (16, text) ->
  exists x, (x = "x"%char \/ x = "X"%char)
            /\ token = String "0" (String x text).
Proof.
  destruct token as [|c r]; [discriminate|].
  each_char c; try discriminate.
  destruct r as [|c2 r2]; [discriminate|].
  each_char c2; try discriminate; intros [= <-]; eauto.
Qed.

(** C7. The parser applies its rules in order: a token that starts with a
    lowercase "b" is read in base 2 from the remainder, else one that
    starts with "0x" or "0X" in base 16, else in base 10; wherever the
    strict reading of the rules gives a number (a safe integer, below
    2^53), the parser returns it; an uppercase "B" is not a binary prefix
    (such a token is read in base 10, where it is not a number); and
    parse("b1010") = 10, parse("0xFF") = 255, parse("42") = 42. *)
Theorem parseValue_rules (token : string) :
  (forall R text, selected token = (R, text) ->
     parseValue token = parseInt (if R =? 16 then token else text) R)
  /\ (forall z, parse_strict token = Num z -> z < 2 ^ 53 ->
        parseValue token = Num z)
  /\ parseValue (String "B" token) = parseInt (String "B" token) 10
  /\ parseValue (String "B" token) = NaN
  /\ parseValue "b1010" = Num 10
  /\ parseValue "0xFF" = Num 255
  /\ parseValue "42" = Num 42.
Proof.
  split; [|split; [|repeat split]].
  - intros R text Hsel. rewrite parseValue_selected, Hsel.
    destruct (Z.eqb_spec R 16) as [->|_]; [|reflexivity].
    destruct (selected_hex token text Hsel) as (x & Hx & ->).
    symmetry. apply parseInt_hex_prefixed, Hx.
  - intros z Hstrict _. revert Hstrict. unfold parse_strict.
    destruct (selected token) as [R text] eqn:Hsel.
    destruct (String.eqb_spec text EmptyString) as [He|Hne]; simpl;
      [discriminate|].
    destruct (String.eqb_spec (numericPrefix R text) text) as [Hp|Hp];
      [|discriminate].
    intros [= <-].
    rewrite (parseValue_prefix_value token R text Hsel) by congruence.
    rewrite Hp. reflexivity.
Qed.

Lemma parseValue_rules_witness : parseValue "0xFF" = Num 255.
Proof.
  apply (proj1 (proj2 (parseValue_rules "0xFF")) 255).
  - reflexivity.
  - reflexivity.
Defined.

(** C10. The parser does not fail on what follows the number: when the
    text in the selected base starts with a digit, the parser returns the
    value of the longest run of digits at its head (a safe integer, below
    2^53) and ignores the rest (parse("42abc") = 42, parse("0xFFzz") = 255,
    parse("b10x") = 2), and only a token whose text has no digit of the
    selected base at its head yields Not-a-Number. *)
Theorem parseValue_ignores_trailing (token : string) (R : Z) (text : string) :
  selected token = (R, text) ->
  (numericPrefix R text <> EmptyString ->
   valueOf R (numericPrefix R text) 0 < 2 ^ 53 ->
     parseValue token = Num (valueOf R (numericPrefix R text) 0))
  /\ (parseValue token = NaN -> numericPrefix R text = EmptyString)
  /\ parseValue "42abc" = Num 42
  /\ parseValue "0xFFzz" = Num 255
  /\ parseValue "b10x" = Num 2.
Proof.
  intros Hsel. split; [|split; [|repeat split]].
  - intros Hne _. apply (parseValue_prefix_value token R text Hsel Hne).
  - apply parseValue_NaN_no_digit, Hsel.
Qed.

Lemma parseValue_ignores_trailing_witness :
  parseValue "0xFFzz" = Num (valueOf 16 (numericPrefix 16 "FFzz") 0).
Proof.
  apply (proj1 (parseValue_ignores_trailing "0xFFzz" 16 "FFzz" eq_refl)).
  - vm_compute. discriminate.
  - reflexivity.
Defined.

(** ** The handlers, case by case *)

Section Handlers.

Context (cfg : Config) (names : RegisterNames) (client : Client).

Lemma handleRead_unsupported (functionCode line : string) (rest : list string) :
  readRequest client functionCode (fst (readArguments cfg line))
    (snd (readArguments cfg line)) = None ->
  run (handleRead cfg names client functionCode) (line :: rest)
  = (Return tt, [Asked readQuestion; UnsupportedRead]).
Proof.
  intros H. revert H. run_handler. intros ->. reflexivity.
Qed.

Lemma handleRead_rejected (functionCode line : string) (rest : list string)
  (request : Call) (message : string) :
  readRequest client functionCode (fst (readArguments cfg line))
    (snd (readArguments cfg line)) = Some (request, Reject message) ->
  run (handleRead cfg names client functionCode) (line :: rest)
  = (Return tt,
     [Asked readQuestion; Called request; ReadTransportError message]).
Proof.
  intros H. revert H. run_handler. intros ->. reflexivity.
Qed.

Lemma handleRead_bits (functionCode line : string) (rest : list string)
  (request : Call) (bits : list bool) :
  readRequest client functionCode (fst (readArguments cfg line))
    (snd (readArguments cfg line)) = Some (request, Resolve (Bits bits)) ->
  run (handleRead cfg names client functionCode) (line :: rest)
  = (Return tt,
     [Asked readQuestion; Called request;
      Log (readEcho functionCode (fst (readArguments cfg line))
             (snd (readArguments cfg line)));
      Table (bitRows names functionCode (fst (readArguments cfg line))
               (snd (readArguments cfg line)) bits)]).
Proof.
  intros H. revert H. run_handler. intros ->. reflexivity.
Qed.

Lemma handleRead_registers (functionCode line : string) (rest : list string)
  (request : Call) (words : list Number) :
  readRequest client functionCode (fst (readArguments cfg line))
    (snd (readArguments cfg line))
  = Some (request, Resolve (Registers words)) ->
  run (handleRead cfg names client functionCode) (line :: rest)
  = (Return tt,
     [Asked readQuestion; Called request;
      Log (readEcho functionCode (fst (readArguments cfg line))
             (snd (readArguments cfg line)));
      Table (registerRows cfg names functionCode
               (fst (readArguments cfg line)) words)]).
Proof.
  intros H. revert H. run_handler. intros ->. reflexivity.
Qed.

Lemma handleWrite_too_few (functionCode line : string) (rest : list string) :
  (length (writeParts line) < 2)%nat ->
  run (handleWrite cfg client functionCode) (line :: rest)
  = (Return tt, [Asked writeQuestion; InvalidInput]).
Proof.
  intros H. apply Nat.ltb_lt in H. revert H. run_handler.
  intros ->. reflexivity.
Qed.

(** What is shown once the device has answered a write. *)
Lemma handleWrite_coils (line : string) (rest : list string) :
  (2 <= length (writeParts line))%nat ->
  let startAddress := fst (writeArguments line) in
  let booleanVals :=
    map (fun val => negb (Number_eqb val (Num 0))) (snd (writeArguments line)) in
  run (handleWrite cfg client "0x0f") (line :: rest)
  = (Return tt,
     [Asked writeQuestion; Called (WriteCoils startAddress booleanVals);
      match writeCoils client startAddress booleanVals with
      | Resolve _ => Log "Successfully wrote multiple coils."
      | Reject message => WriteTransportError message
      end]).
Proof.
  intros H. apply Nat.ltb_ge in H. revert H. run_handler.
  intros ->. simpl String.eqb. cbv iota.
  destruct (writeCoils client _ _); reflexivity.
Qed.

Lemma handleWrite_registers (line : string) (rest : list string) :
  (2 <= length (writeParts line))%nat ->
  let startAddress := fst (writeArguments line) in
  let registerVals := map (convertEndianness cfg) (snd (writeArguments line)) in
  run (handleWrite cfg client "0x10") (line :: rest)
  = (Return tt,
     [Asked writeQuestion; Called (WriteRegisters startAddress registerVals);
      match writeRegisters client startAddress registerVals with
      | Resolve _ => Log "Successfully wrote multiple holding registers."
      | Reject message => WriteTransportError message
      end]).
Proof.
  intros H. apply Nat.ltb_ge in H. revert H. run_handler.
  intros ->. simpl String.eqb. cbv iota.
  destruct (writeRegisters client _ _); reflexivity.
Qed.

Lemma handleWrite_unsupported (functionCode line : string)
  (rest : list string) :
  (2 <= length (writeParts line))%nat ->
  functionCode <> "0x0f" -> functionCode <> "0x10" ->
  run (handleWrite cfg client functionCode) (line :: rest)
  = (Return tt, [Asked writeQuestion; UnsupportedWrite]).
Proof.
  intros H Hf H10. apply Nat.ltb_ge in H.
  apply String.eqb_neq in Hf, H10. revert H. run_handler.
  intros ->. rewrite Hf, H10. reflexivity.
Qed.

End Handlers.

(** ** Reads *)

Lemma readRequest_fails (client : Client) (functionCode : string)
  (a q : Number) (message : string) :
  readFails client functionCode a q message ->
  exists request,
    readCall functionCode a q = Some request
    /\ readRequest client functionCode a q = Some (request, Reject message).
Proof.
  intros [[-> H]|[[-> H]|[[-> H]|[-> H]]]];
    eexists; (split; [reflexivity|]);
    unfold readRequest; simpl; rewrite H; reflexivity.
Qed.

(** C9. When the read primitive of the transport fails, the read reports
    a transport error that carries the message of the failure, and shows
    no row: no table is printed for any address of the span. *)
Theorem handleRead_transport_failure (cfg : Config) (names : RegisterNames)
  (client : Client) (functionCode line : string) (rest : list string)
  (message : string) :
  readFails client functionCode (fst (readArguments cfg line))
    (snd (readArguments cfg line)) message ->
  (exists request,
     readCall functionCode (fst (readArguments cfg line))
       (snd (readArguments cfg line)) = Some request
     /\ run (handleRead cfg names client functionCode) (line :: rest)
        = (Return tt,
           [Asked readQuestion; Called request; ReadTransportError message]))
  /\ tables (events (handleRead cfg names client functionCode) (line :: rest))
     = []
  /\ errors (events (handleRead cfg names client functionCode) (line :: rest))
     = [["Error reading data:"; message]].
Proof.
  intros Hf. apply readRequest_fails in Hf. destruct Hf as (request & Hc & Hr).
  pose proof (handleRead_rejected cfg names client _ line rest _ _ Hr) as Hrun.
  split; [exists request; auto|].
  unfold events. rewrite Hrun. split; reflexivity.
Qed.

Lemma handleRead_transport_failure_witness :
  tables (events (handleRead config readme_names readme_device "0x01")
            ["0x10 8"]) = [].
Proof.
  apply (handleRead_transport_failure config readme_names readme_device
           "0x01" "0x10 8" [] "Timed out").
  left. split; reflexivity.
Defined.

(** ** The formatter *)

Lemma allFrom_spec (count : nat) (n : Z) (P : Z -> bool) :
  allFrom count n P = true ->
  forall k, n <= k < n + Z.of_nat count -> P k = true.
Proof.
  revert n. induction count as [|c IH]; intros n H k Hk; [lia|].
  simpl in H. apply andb_true_iff in H. destruct H as [Hn Hrest].
  destruct (Z.eq_dec k n) as [->|Hne]; [exact Hn|].
  apply (IH (n + 1) Hrest). lia.
Qed.

(** The display form of every 16-bit address, checked one by one. *)
Lemma toHex_hex4_all :
  allFrom (Z.to_nat 65536) 0 (fun k => String.eqb (toHex (Num k)) (hex4 k))
  = true.
Proof. vm_compute. reflexivity. Qed.

Lemma toHex_hex4 (n : Z) : 0 <= n <= 65535 -> toHex (Num n) = hex4 n.
Proof.
  intros Hn. apply String.eqb_eq.
  apply (allFrom_spec _ _ _ toHex_hex4_all n). lia.
Qed.

Lemma charToUpperCase_idem (c : ascii) :
  charToUpperCase (charToUpperCase c) = charToUpperCase c.
Proof. each_char c; reflexivity. Qed.

Lemma toUpperCase_idem (s : string) : toUpperCase (toUpperCase s) = toUpperCase s.
Proof.
  induction s as [|c r IH]; simpl; [reflexivity|].
  rewrite charToUpperCase_idem, IH. reflexivity.
Qed.

(** A "0x" or "0X" in front of any text is normalized to "0x", and the
    text to uppercase. *)
Lemma normalizeAddress_prefixed (x : ascii) (text : string) :
  x = "x"%char \/ x = "X"%char ->
  normalizeAddress (String "0" (String x text))
  = String "0" (String "x" (toUpperCase text)).
Proof.
  intros [->| ->]; unfold normalizeAddress; simpl;
    rewrite prefix_empty; reflexivity.
Qed.

(** What [toHex] writes is in normal form already. *)
Lemma normalizeAddress_toHex (num : Number) :
  normalizeAddress (toHex num) = toHex num.
Proof.
  unfold toHex.
  set (digits := toUpperCase (padStart 4 "0" (toString num 16))).
  change ("0x" ++ digits) with (String "0" (String "x" digits)).
  rewrite (normalizeAddress_prefixed "x") by auto.
  unfold digits. rewrite toUpperCase_idem. reflexivity.
Qed.

(** *** Number.prototype.toString writes the number

    The digits written read back as the number, so the fuel of
    [natToString] is enough and each digit is the right one. *)

Lemma digitIn_digitChar (R d : Z) :
  supported R -> 0 <= d < R -> digitIn R (digitChar d) = Some d.
Proof.
  intros HR Hd.
  assert (Hcases : d = 0 \/ d = 1 \/ d = 2 \/ d = 3 \/ d = 4 \/ d = 5
                   \/ d = 6 \/ d = 7 \/ d = 8 \/ d = 9 \/ d = 10 \/ d = 11
                   \/ d = 12 \/ d = 13 \/ d = 14 \/ d = 15)
    by (destruct HR as [->|[->| ->]]; lia).
  destruct HR as [->|[->| ->]];
    repeat (destruct Hcases as [->|Hcases]; [reflexivity || lia|]);
    subst d; reflexivity || lia.
Qed.

Lemma digitsOf_S (fuel : nat) (R n : Z) (acc : string) :
  digitsOf (S fuel) R n acc
  = if n / R =? 0 then String (digitChar (n mod R)) acc
    else digitsOf fuel R (n / R) (String (digitChar (n mod R)) acc).
Proof. reflexivity. Qed.

Lemma digitsOf_value (R : Z) (fuel : nat) :
  supported R ->
  forall (n : Z) (acc : string),
    0 <= n < 2 ^ Z.of_nat (S fuel) ->
    valueOf R (digitsOf (S fuel) R n acc) 0 = valueOf R acc n.
Proof.
  intros HR.
  assert (HR2 : 2 <= R) by (destruct HR as [->|[->| ->]]; lia).
  induction fuel as [|f IH]; intros n acc Hn.
  - change (2 ^ Z.of_nat 1) with 2 in Hn.
    assert (Hq : n / R = 0) by (apply Z.div_small; lia).
    simpl. rewrite Hq. simpl.
    rewrite Z.mod_small by lia.
    rewrite digitIn_digitChar by (auto; lia). reflexivity.
  - rewrite digitsOf_S.
    assert (Hmod : 0 <= n mod R < R) by (apply Z.mod_pos_bound; lia).
    assert (Hstep : valueOf R (String (digitChar (n mod R)) acc) (n / R)
                    = valueOf R acc n).
    { cbn [valueOf]. rewrite digitIn_digitChar by auto. simpl.
      f_equal. pose proof (Z.div_mod n R). lia. }
    destruct (Z.eqb_spec (n / R) 0) as [Hq|Hq].
    + rewrite <- Hstep, Hq. reflexivity.
    + rewrite IH; [exact Hstep|].
      split; [apply Z.div_pos; lia|].
      apply Z.div_lt_upper_bound; [lia|].
      rewrite Nat2Z.inj_succ, Z.pow_succ_r in Hn by lia.
      nia.
Qed.

Lemma digitsOf_digits (R : Z) (fuel : nat) :
  supported R ->
  forall (n : Z) (acc : string),
    0 <= n -> numericPrefix R acc = acc ->
    numericPrefix R (digitsOf fuel R n acc) = digitsOf fuel R n acc.
Proof.
  intros HR.
  assert (HR2 : 2 <= R) by (destruct HR as [->|[->| ->]]; lia).
  induction fuel as [|f IH]; intros n acc Hn Hacc; [exact Hacc|].
  rewrite digitsOf_S.
  assert (Hmod : 0 <= n mod R < R) by (apply Z.mod_pos_bound; lia).
  assert (Hacc' : numericPrefix R (String (digitChar (n mod R)) acc)
                  = String (digitChar (n mod R)) acc).
  { cbn [numericPrefix]. rewrite digitIn_digitChar by auto.
    rewrite Hacc. reflexivity. }
  destruct (n / R =? 0); [exact Hacc'|].
  apply IH; [apply Z.div_pos; lia | exact Hacc'].
Qed.

Lemma digitsOf_nonempty (R : Z) (fuel : nat) (n : Z) (acc : string) :
  digitsOf (S fuel) R n acc <> EmptyString.
Proof.
  revert n acc. induction fuel as [|f IH]; intros n acc.
  - simpl. destruct (n / R =? 0); discriminate.
  - rewrite digitsOf_S. destruct (n / R =? 0); [discriminate | apply IH].
Qed.

Lemma natToString_value (R n : Z) :
  supported R -> 0 <= n -> valueOf R (natToString R n) 0 = n.
Proof.
  intros HR Hn. unfold natToString.
  rewrite digitsOf_value; [reflexivity | exact HR |].
  split; [exact Hn|].
  rewrite Nat2Z.inj_succ, Z2Nat.id by apply Z.log2_nonneg.
  destruct (Z.eq_dec n 0) as [->|Hne]; [reflexivity|].
  apply Z.log2_spec. lia.
Qed.

(** A non-negative number written in decimal reads back as itself. *)
Lemma parseInt_toString (n : Z) :
  0 <= n -> parseInt (toString (Num n) 10) 10 = Num n.
Proof.
  intros Hn. unfold toString.
  destruct (Z.ltb_spec n 0) as [Hlt|_]; [lia|].
  assert (H10 : supported 10) by (right; left; reflexivity).
  assert (Hdigits : numericPrefix 10 (natToString 10 n) = natToString 10 n)
    by (apply digitsOf_digits; auto).
  assert (Hne : natToString 10 n <> EmptyString) by apply digitsOf_nonempty.
  rewrite parseInt_leading_digit by (auto; congruence).
  rewrite readDigits_value by (auto; congruence).
  rewrite Hdigits, natToString_value by auto. reflexivity.
Qed.

(** ** Rows *)

Lemma handleRead_register_table (cfg : Config) (names : RegisterNames)
  (client : Client) (functionCode line : string) (rest : list string)
  (data : list Number) :
  registersRead client functionCode (fst (readArguments cfg line))
    (snd (readArguments cfg line)) data ->
  tables (events (handleRead cfg names client functionCode) (line :: rest))
  = [registerRows cfg names functionCode (fst (readArguments cfg line)) data].
Proof.
  intros Hr.
  assert (exists request,
    readRequest client functionCode (fst (readArguments cfg line))
      (snd (readArguments cfg line))
    = Some (request, Resolve (Registers data))) as [request Hreq].
  { revert Hr. generalize (fst (readArguments cfg line)) as a.
    generalize (snd (readArguments cfg line)) as q.
    intros q a [[-> H]|[-> H]]; eexists;
      unfold readRequest; simpl; rewrite H; reflexivity. }
  unfold events.
  rewrite (handleRead_registers cfg names client _ line rest _ _ Hreq).
  reflexivity.
Qed.

Lemma handleRead_bit_table (cfg : Config) (names : RegisterNames)
  (client : Client) (functionCode line : string) (rest : list string)
  (data : list bool) :
  bitsRead client functionCode (fst (readArguments cfg line))
    (snd (readArguments cfg line)) data ->
  tables (events (handleRead cfg names client functionCode) (line :: rest))
  = [bitRows names functionCode (fst (readArguments cfg line))
       (snd (readArguments cfg line)) data].
Proof.
  intros Hr.
  assert (exists request,
    readRequest client functionCode (fst (readArguments cfg line))
      (snd (readArguments cfg line))
    = Some (request, Resolve (Bits data))) as [request Hreq].
  { revert Hr. generalize (fst (readArguments cfg line)) as a.
    generalize (snd (readArguments cfg line)) as q.
    intros q a [[-> H]|[-> H]]; eexists;
      unfold readRequest; simpl; rewrite H; reflexivity. }
  unfold events.
  rewrite (handleRead_bits cfg names client _ line rest _ _ Hreq).
  reflexivity.
Qed.

(** The rows of a register read are as many as the values received,
    whatever the quantity asked; those of a bit read are cut to the
    quantity. *)
Lemma registerRows_length (cfg : Config) (names : RegisterNames)
  (functionCode : string) (startAddress : Number) (data : list Number) :
  length (registerRows cfg names functionCode startAddress data) = length data.
Proof. unfold registerRows. apply length_imap. Qed.

Lemma bitRows_length (names : RegisterNames) (functionCode : string)
  (startAddress : Number) (quantity : Z) (data : list bool) :
  0 <= quantity <= Z.of_nat (length data) ->
  Z.of_nat (length (bitRows names functionCode startAddress (Num quantity) data))
  = quantity.
Proof.
  intros Hq. unfold bitRows, slice0.
  destruct (Z.ltb_spec quantity 0) as [Hlt|Hge]; [lia|].
  rewrite length_imap, length_take. lia.
Qed.

(** C1 fails on the code for the register classes: asked for one holding
    register, a device that answers with two gets both shown, while the
    same device asked for one coil and answering with a byte of them gets
    one row; the rows of a register read are always as many as the values
    received. *)
Theorem handleRead_registers_not_truncated :
  readArguments config "0 1" = (Num 0, Num 1)
  /\ registersRead bench_device "0x03" (Num 0) (Num 1) [Num 1; Num 2]
  /\ tables (events (handleRead config no_names bench_device "0x03") ["0 1"])
     = [[RegisterRow "HR1" "0x0000" EmptyString (Num 1)
           "0x0001" "0000 0000 0000 0001 ";
         RegisterRow "HR2" "0x0001" EmptyString (Num 2)
           "0x0002" "0000 0000 0000 0010 "]]
  /\ tables (events (handleRead config no_names bench_device "0x01") ["0 1"])
     = [[BitRow "C1" "0x0000" EmptyString true]]
  /\ (forall cfg names functionCode startAddress data,
        length (registerRows cfg names functionCode startAddress data)
        = length data).
Proof.
  split; [reflexivity|]. split; [left; split; reflexivity|].
  split; [vm_compute; reflexivity|].
  split; [vm_compute; reflexivity|].
  apply registerRows_length.
Qed.

(** ** The resolver *)

Lemma getRegisterName_tableFor (names : RegisterNames)
  (functionCode address : string) :
  getRegisterName names functionCode address
  = match tableFor names functionCode with
    | Some table => default EmptyString (table !! normalizeAddress address)
    | None => EmptyString
    end.
Proof.
  unfold getRegisterName, tableFor, nameIn.
  repeat (destruct (String.eqb functionCode _));
    try reflexivity;
    match goal with
    | |- context [match ?t with Some _ => _ | None => _ end] =>
        destruct t as [table|]; [|reflexivity]
    end;
    destruct (table !! normalizeAddress address) as [name|]; try reflexivity;
    simpl; destruct (String.eqb_spec name EmptyString) as [->|]; reflexivity.
Qed.

(** C3, as stated, fails: a key written with lowercase hex digits is not
    found, although it normalizes to the address asked for. *)
Lemma getRegisterName_lowercase_key_missed :
  ~ resolves_any_casing lowercase_names "0x03" 10.
Proof.
  intros H.
  specialize (H {["0x000a" := "SETPOINT"]} "0x000a" "SETPOINT" eq_refl).
  assert (Hname : getRegisterName lowercase_names "0x03" (toHex (Num 10))
                  = EmptyString) by (vm_compute; reflexivity).
  rewrite Hname in H.
  discriminate H; [apply lookup_singleton_eq | vm_compute; reflexivity].
Qed.

(** C3, amended. Name resolution normalizes the address asked for
    (uppercase hex digits after a lowercase "0x"; what the formatter
    writes is in that form already) and returns the name the table of the
    class binds to exactly that key: the keys of the table are taken as
    they are written.  No entry under the key, or no table for the class,
    gives the empty string. *)
Theorem getRegisterName_exact_key (names : RegisterNames)
  (functionCode address : string) (num : Number) :
  getRegisterName names functionCode address
  = match tableFor names functionCode with
    | Some table => default EmptyString (table !! normalizeAddress address)
    | None => EmptyString
    end
  /\ normalizeAddress (String "0" (String "X" address))
     = String "0" (String "x" (toUpperCase address))
  /\ normalizeAddress (String "0" (String "x" address))
     = String "0" (String "x" (toUpperCase address))
  /\ normalizeAddress (toHex num) = toHex num
  /\ (tableFor names functionCode = None ->
      getRegisterName names functionCode address = EmptyString)
  /\ (forall table, tableFor names functionCode = Some table ->
      table !! normalizeAddress address = None ->
      getRegisterName names functionCode address = EmptyString).
Proof.
  repeat split.
  - apply getRegisterName_tableFor.
  - apply normalizeAddress_prefixed. auto.
  - apply normalizeAddress_prefixed. auto.
  - apply normalizeAddress_toHex.
  - intros Hnone. rewrite getRegisterName_tableFor, Hnone. reflexivity.
  - intros table Hsome Hkey.
    rewrite getRegisterName_tableFor, Hsome, Hkey. reflexivity.
Qed.

Lemma getRegisterName_exact_key_witness :
  getRegisterName readme_names "0x01" "0x0004" = EmptyString.
Proof.
  apply (getRegisterName_exact_key readme_names "0x01" "0x0004" (Num 4)).
  reflexivity.
Defined.

(** ** Dispatch *)

(** A handler adds to the trace it finds. *)
Lemma handleRead_frame (cfg : Config) (names : RegisterNames) (client : Client)
  (functionCode : string) (lines : list string) (tr : list Event) :
  handleRead cfg names client functionCode {| stdin := lines; trace := tr |}
  = let '(r, w) := handleRead cfg names client functionCode
                     {| stdin := lines; trace := [] |} in
    (r, {| stdin := stdin w; trace := tr ++ trace w |}).
Proof.
  destruct lines as [|line rest]; step_handler; [reflexivity|].
  destruct (readRequest client functionCode _ _) as [[request [[bits|words]|m]]|];
    cbv beta iota; rewrite <- ?app_assoc; reflexivity.
Qed.

Lemma handleWrite_frame (cfg : Config) (client : Client)
  (functionCode : string) (lines : list string) (tr : list Event) :
  handleWrite cfg client functionCode {| stdin := lines; trace := tr |}
  = let '(r, w) := handleWrite cfg client functionCode
                     {| stdin := lines; trace := [] |} in
    (r, {| stdin := stdin w; trace := tr ++ trace w |}).
Proof.
  destruct lines as [|line rest]; step_handler; [reflexivity|].
  destruct (_ <? 2)%nat; [rewrite <- ?app_assoc; reflexivity|].
  destruct (String.eqb functionCode "0x0f").
  - destruct (writeCoils client _ _); cbv beta iota;
      rewrite <- ?app_assoc; reflexivity.
  - destruct (String.eqb functionCode "0x10");
      [|rewrite <- ?app_assoc; reflexivity].
    destruct (writeRegisters client _ _); cbv beta iota;
      rewrite <- ?app_assoc; reflexivity.
Qed.

Lemma calls_app (xs ys : list Event) :
  calls (xs ++ ys) = (calls xs ++ calls ys)%list.
Proof. unfold calls. apply omap_app. Qed.

(** The main loop hands the code typed to the handlers in lowercase. *)
Lemma mainLoopRound_read (cfg : Config) (names : RegisterNames)
  (client : Client) (typed funcCode : string) (lines : list string) :
  readCode funcCode ->
  toLowerCase (trim typed) = funcCode ->
  calls (events (mainLoopRound cfg names client) (typed :: lines))
  = calls (events (handleRead cfg names client funcCode) lines).
Proof.
  intros Hcode Hlower. step_round. rewrite Hlower.
  destruct Hcode as [->|[->|[->| ->]]]; decide_code;
    rewrite handleRead_frame;
    match goal with
    | |- context [handleRead cfg names client ?fc ?w] =>
        destruct (handleRead cfg names client fc w) as [[u|m|] w']
    end; cbv beta iota zeta delta [snd trace stdin];
    rewrite ?calls_app; reflexivity.
Qed.

Lemma mainLoopRound_write (cfg : Config) (names : RegisterNames)
  (client : Client) (typed funcCode : string) (lines : list string) :
  funcCode = "0x0f" \/ funcCode = "0x10" ->
  toLowerCase (trim typed) = funcCode ->
  calls (events (mainLoopRound cfg names client) (typed :: lines))
  = calls (events (handleWrite cfg client funcCode) lines).
Proof.
  intros Hcode Hlower. step_round. rewrite Hlower.
  destruct Hcode as [->| ->]; decide_code;
    rewrite handleWrite_frame;
    match goal with
    | |- context [handleWrite cfg client ?fc ?w] =>
        destruct (handleWrite cfg client fc w) as [[u|m|] w']
    end; cbv beta iota zeta delta [snd trace stdin];
    rewrite ?calls_app; reflexivity.
Qed.

Lemma readCall_cases (functionCode : string) (a q : Number) :
  (readCode functionCode /\ exists request, readCall functionCode a q = Some request)
  \/ (~ readCode functionCode /\ readCall functionCode a q = None).
Proof.
  unfold readCall, readCode.
  destruct (String.eqb_spec functionCode "0x01") as [->|H1]; [left; eauto|].
  destruct (String.eqb_spec functionCode "0x02") as [->|H2]; [left; eauto|].
  destruct (String.eqb_spec functionCode "0x03") as [->|H3]; [left; eauto 6|].
  destruct (String.eqb_spec functionCode "0x04") as [->|H4]; [left; eauto 6|].
  right. split; [tauto | reflexivity].
Qed.

Lemma readRequest_readCall (client : Client) (functionCode : string)
  (a q : Number) :
  match readCall functionCode a q with
  | Some request =>
      exists response,
        readRequest client functionCode a q = Some (request, response)
  | None => readRequest client functionCode a q = None
  end.
Proof.
  unfold readCall, readRequest.
  repeat (destruct (String.eqb functionCode _); [eauto|]). reflexivity.
Qed.

(** A read with a read function code sends its request, once. *)
Lemma handleRead_calls (cfg : Config) (names : RegisterNames)
  (client : Client) (functionCode line : string) (rest : list string)
  (request : Call) :
  readCall functionCode (fst (readArguments cfg line))
    (snd (readArguments cfg line)) = Some request ->
  calls (events (handleRead cfg names client functionCode) (line :: rest))
  = [request].
Proof.
  intros Hcall.
  pose proof (readRequest_readCall client functionCode
                (fst (readArguments cfg line)) (snd (readArguments cfg line)))
    as Hreq.
  rewrite Hcall in Hreq. destruct Hreq as [[[bits|words]|m] Hreq];
    unfold events.
  - rewrite (handleRead_bits cfg names client _ line rest _ _ Hreq).
    reflexivity.
  - rewrite (handleRead_registers cfg names client _ line rest _ _ Hreq).
    reflexivity.
  - rewrite (handleRead_rejected cfg names client _ line rest _ _ Hreq).
    reflexivity.
Qed.

Lemma handleRead_no_call (cfg : Config) (names : RegisterNames)
  (client : Client) (functionCode line : string) (rest : list string) :
  readCall functionCode (fst (readArguments cfg line))
    (snd (readArguments cfg line)) = None ->
  run (handleRead cfg names client functionCode) (line :: rest)
  = (Return tt, [Asked readQuestion; UnsupportedRead]).
Proof.
  intros Hcall. apply handleRead_unsupported.
  pose proof (readRequest_readCall client functionCode
                (fst (readArguments cfg line)) (snd (readArguments cfg line)))
    as Hreq.
  rewrite Hcall in Hreq. exact Hreq.
Qed.

Lemma handleWrite_coils_calls (cfg : Config) (client : Client)
  (line : string) (rest : list string) :
  (2 <= length (writeParts line))%nat ->
  calls (events (handleWrite cfg client "0x0f") (line :: rest))
  = [WriteCoils (fst (writeArguments line))
       (map nonzero (snd (writeArguments line)))].
Proof.
  intros H. unfold events. rewrite (handleWrite_coils cfg client line rest H).
  cbv zeta. unfold calls, snd at 1.
  destruct (writeCoils client _ _); reflexivity.
Qed.

Lemma handleWrite_registers_calls (cfg : Config) (client : Client)
  (line : string) (rest : list string) :
  (2 <= length (writeParts line))%nat ->
  calls (events (handleWrite cfg client "0x10") (line :: rest))
  = [WriteRegisters (fst (writeArguments line))
       (map (convertEndianness cfg) (snd (writeArguments line)))].
Proof.
  intros H. unfold events.
  rewrite (handleWrite_registers cfg client line rest H).
  cbv zeta. unfold calls, snd at 1.
  destruct (writeRegisters client _ _); reflexivity.
Qed.

(** C5, as stated, fails: the write entry point does not know the code
    "0x0F" in the spelling of the menu and of the table of function
    names; it reports it as unsupported and sends nothing. *)
Lemma handleWrite_uppercase_code_rejected :
  FUNCTION_NAMES "0x0F" = Some "Write Multiple Coils"
  /\ run (handleWrite config bench_device "0x0F") ["0 1"]
     = (Return tt, [Asked writeQuestion; UnsupportedWrite])
  /\ ~ (exists address values,
          In (WriteCoils address values)
             (calls (events (handleWrite config bench_device "0x0F")
                       ["0 1"]))).
Proof.
  split; [reflexivity|]. split; [vm_compute; reflexivity|].
  intros (address & values & Hin). vm_compute in Hin. exact Hin.
Qed.

(** C5, amended. The six function codes, in lowercase as the main loop
    hands them on (it lowercases what is typed, so "0x0F" arrives as
    "0x0f"), each belong to one request: the read entry point sends the
    request of "0x01", "0x02", "0x03", "0x04", and the write entry point,
    once given an address and a value, that of "0x0f" and "0x10".  Any
    other code is reported as unsupported by the read entry point, and by
    the write entry point once given an address and a value; nothing is
    sent then. *)
Theorem function_code_dispatch (cfg : Config) (names : RegisterNames)
  (client : Client) (typed functionCode line : string) (rest : list string) :
  let a := fst (readArguments cfg line) in
  let q := snd (readArguments cfg line) in
  (readCall "0x01" a q = Some (ReadCoils a q)
   /\ readCall "0x02" a q = Some (ReadDiscreteInputs a q)
   /\ readCall "0x03" a q = Some (ReadHoldingRegisters a q)
   /\ readCall "0x04" a q = Some (ReadInputRegisters a q)
   /\ (~ readCode functionCode -> readCall functionCode a q = None))
  /\ (forall request, readCall functionCode a q = Some request ->
        calls (events (handleRead cfg names client functionCode)
                 (line :: rest)) = [request])
  /\ (~ readCode functionCode ->
        run (handleRead cfg names client functionCode) (line :: rest)
        = (Return tt, [Asked readQuestion; UnsupportedRead]))
  /\ ((2 <= length (writeParts line))%nat ->
        calls (events (handleWrite cfg client "0x0f") (line :: rest))
        = [WriteCoils (fst (writeArguments line))
             (map nonzero (snd (writeArguments line)))]
        /\ calls (events (handleWrite cfg client "0x10") (line :: rest))
           = [WriteRegisters (fst (writeArguments line))
                (map (convertEndianness cfg) (snd (writeArguments line)))]
        /\ (functionCode <> "0x0f" -> functionCode <> "0x10" ->
              run (handleWrite cfg client functionCode) (line :: rest)
              = (Return tt, [Asked writeQuestion; UnsupportedWrite])))
  /\ (readCode functionCode -> toLowerCase (trim typed) = functionCode ->
        calls (events (mainLoopRound cfg names client) (typed :: line :: rest))
        = calls (events (handleRead cfg names client functionCode)
                   (line :: rest)))
  /\ (functionCode = "0x0f" \/ functionCode = "0x10" ->
        toLowerCase (trim typed) = functionCode ->
        calls (events (mainLoopRound cfg names client) (typed :: line :: rest))
        = calls (events (handleWrite cfg client functionCode) (line :: rest))).
Proof.
  intros a q.
  assert (Hnone : ~ readCode functionCode -> readCall functionCode a q = None).
  { intros Hn. destruct (readCall_cases functionCode a q) as [[Hc _]|[_ H]];
      [contradiction | exact H]. }
  split; [repeat split; exact Hnone|].
  split; [intros request; apply handleRead_calls|].
  split; [intros Hn; apply handleRead_no_call, Hnone, Hn|].
  split; [|split].
  - intros Hparts. split; [apply handleWrite_coils_calls, Hparts|].
    split; [apply handleWrite_registers_calls, Hparts|].
    intros Hf H10. apply handleWrite_unsupported; assumption.
  - apply mainLoopRound_read.
  - apply mainLoopRound_write.
Qed.

Lemma function_code_dispatch_witness :
  run (handleWrite config bench_device "0x05") ["10 1 1 0 1"]
  = (Return tt, [Asked writeQuestion; UnsupportedWrite]).
Proof.
  apply (function_code_dispatch config no_names bench_device
           "0x05" "0x05" "10 1 1 0 1" []).
  - vm_compute. lia.
  - discriminate.
  - discriminate.
Defined.

(** ** Failed parses *)

(** C2, as stated, fails: a value that does not parse is sent to the
    device as a coil that is on, and no error is reported. *)
Lemma handleWrite_sends_failed_parse :
  parseValue "zz" = NaN
  /\ run (handleWrite config bench_device "0x0f") ["0 zz"]
     = (Return tt,
        [Asked writeQuestion; Called (WriteCoils (Num 0) [true]);
         Log "Successfully wrote multiple coils."])
  /\ ~ reportsInvalidInput
         (events (handleWrite config bench_device "0x0f") ["0 zz"]).
Proof.
  split; [reflexivity|]. split; [vm_compute; reflexivity|].
  intros [Hcalls _]. vm_compute in Hcalls. discriminate Hcalls.
Qed.

(** C2, amended. A token whose text, in the base it selects, starts with
    no digit (and with no sign or white space before one) parses to
    Not-a-Number; neither entry point checks for it, and what was parsed
    is passed on: a value that failed to parse is sent by a write of coils
    as [true] (NaN !== 0) and by a write of registers as the endianness
    transform of Not-a-Number (Not-a-Number itself with BIG, 0 with
    LITTLE), and a read sends its request with whatever address and
    quantity came out of the parse. *)
Theorem failed_parse_is_transmitted (cfg : Config) (names : RegisterNames)
  (client : Client) (token : string) (R : Z) (text : string)
  (functionCode line : string) (rest : list string) :
  (selected token = (R, text) -> plainStart text ->
     numericPrefix R text = EmptyString -> parseValue token = NaN)
  /\ nonzero NaN = true
  /\ (little cfg -> convertEndianness cfg NaN = Num 0)
  /\ (~ little cfg -> convertEndianness cfg NaN = NaN)
  /\ ((2 <= length (writeParts line))%nat ->
        calls (events (handleWrite cfg client "0x0f") (line :: rest))
        = [WriteCoils (fst (writeArguments line))
             (map nonzero (snd (writeArguments line)))]
        /\ calls (events (handleWrite cfg client "0x10") (line :: rest))
           = [WriteRegisters (fst (writeArguments line))
                (map (convertEndianness cfg) (snd (writeArguments line)))])
  /\ (forall (i : nat) (value : string),
        writeParts line !! S i = Some value -> parseValue value = NaN ->
        map nonzero (snd (writeArguments line)) !! i = Some true
        /\ map (convertEndianness cfg) (snd (writeArguments line)) !! i
           = Some (convertEndianness cfg NaN))
  /\ (forall request,
        readCall functionCode (fst (readArguments cfg line))
          (snd (readArguments cfg line)) = Some request ->
        calls (events (handleRead cfg names client functionCode)
                 (line :: rest)) = [request]).
Proof.
  split; [apply parseValue_no_digit|].
  split; [reflexivity|].
  split; [intros Hl; rewrite convertEndianness_little by exact Hl; reflexivity|].
  split; [apply convertEndianness_big|].
  split; [|split].
  - intros Hparts. split; [apply handleWrite_coils_calls, Hparts|].
    apply handleWrite_registers_calls, Hparts.
  - intros i value Hvalue HNaN. unfold writeArguments, snd.
    assert (Hi : map parseValue (drop 1 (writeParts line)) !! i = Some NaN).
    { rewrite list_lookup_fmap, lookup_drop. simpl Nat.add.
      rewrite Hvalue. simpl. rewrite HNaN. reflexivity. }
    split; rewrite list_lookup_fmap, Hi; reflexivity.
  - intros request. apply handleRead_calls.
Qed.

Lemma failed_parse_is_transmitted_witness :
  map nonzero (snd (writeArguments "0 zz")) !! 0%nat = Some true
  /\ map (convertEndianness config) (snd (writeArguments "0 zz")) !! 0%nat
     = Some (convertEndianness config NaN).
Proof.
  apply (proj1 (proj2 (proj2 (proj2 (proj2 (proj2
           (failed_parse_is_transmitted config no_names bench_device
              "zz" 10 "zz" "0x0f" "0 zz" []))))))
           0%nat "zz").
  - reflexivity.
  - reflexivity.
Defined.

(** * Further properties of main.js *)

(** ** The codec applied twice *)

Lemma ToInt32_low16 (z : Z) : ToInt32 (Num z) mod 65536 = z mod 65536.
Proof.
  unfold ToInt32.
  pose proof (Z.div_mod (z + 2 ^ 31) (2 ^ 32) ltac:(lia)) as Hdm.
  replace ((z + 2 ^ 31) mod 2 ^ 32 - 2 ^ 31)
    with (z + (- ((z + 2 ^ 31) / 2 ^ 32) * 65536) * 65536) by lia.
  apply Z.mod_add. lia.
Qed.

(** X1. With LITTLE the transform applied twice keeps the low 16 bits of
    any integer: a value in range comes back, a larger or a negative one
    comes back reduced modulo 65536. *)
Theorem convertEndianness_twice_little (cfg : Config) (z : Z) :
  little cfg ->
  convertEndianness cfg (convertEndianness cfg (Num z)) = Num (z mod 65536).
Proof.
  intros Hl. rewrite (convertEndianness_little cfg (Num z) Hl).
  rewrite convertEndianness_little by exact Hl.
  set (t := ToInt32 (Num z)).
  pose proof (Z.mod_pos_bound t 256) as Hlo.
  pose proof (Z.mod_pos_bound (t / 256) 256) as Hhi.
  rewrite ToInt32_small by lia.
  rewrite <- ToInt32_low16. fold t. f_equal.
  replace ((t mod 256 * 256 + t / 256 mod 256) mod 256)
    with (t / 256 mod 256)
    by (rewrite Z.add_comm, Z.mod_add, Z.mod_mod by lia; reflexivity).
  replace ((t mod 256 * 256 + t / 256 mod 256) / 256 mod 256)
    with (t mod 256).
  - pose proof (Z.div_mod t 256 ltac:(lia)).
    pose proof (Z.div_mod (t / 256) 256 ltac:(lia)).
    pose proof (Z.div_mod t 65536 ltac:(lia)).
    assert (Hd : t / 65536 = t / 256 / 256)
      by (rewrite Z.div_div by lia; reflexivity).
    lia.
  - rewrite Z.add_comm, Z.div_add by lia.
    rewrite (Z.div_small (t / 256 mod 256)) by lia.
    rewrite Z.add_0_l, Z.mod_mod by lia. reflexivity.
Qed.

Lemma convertEndianness_twice_little_witness :
  convertEndianness config_little (convertEndianness config_little (Num 70000))
  = Num (70000 mod 65536).
Proof.
  apply (convertEndianness_twice_little config_little 70000). reflexivity.
Defined.

(** ** What the formatter writes reads back *)

Lemma append_cons (c : ascii) (r s : string) :
  String c r ++ s = String c (r ++ s).
Proof. reflexivity. Qed.

Lemma append_empty (s : string) : EmptyString ++ s = s.
Proof. reflexivity. Qed.

Lemma length_append (r s : string) :
  String.length (r ++ s) = (String.length r + String.length s)%nat.
Proof.
  induction r as [|c r IH]; [reflexivity|].
  rewrite append_cons. simpl. rewrite IH. reflexivity.
Qed.

Lemma length_repeatChar (k : nat) (c : ascii) :
  String.length (repeatChar k c) = k.
Proof. induction k as [|k IH]; simpl; congruence. Qed.

Lemma digitIn_zero (R : Z) : supported R -> digitIn R "0" = Some 0.
Proof. intros [->|[->| ->]]; reflexivity. Qed.

(** Zeros in front change neither the digits nor the number. *)
Lemma valueOf_zeros (R : Z) (k : nat) (s : string) :
  supported R -> valueOf R (repeatChar k "0" ++ s) 0 = valueOf R s 0.
Proof.
  intros HR. induction k as [|k IH]; [reflexivity|].
  simpl repeatChar. rewrite append_cons. cbn [valueOf].
  rewrite digitIn_zero by exact HR. exact IH.
Qed.

Lemma numericPrefix_zeros (R : Z) (k : nat) (s : string) :
  supported R -> numericPrefix R s = s ->
  numericPrefix R (repeatChar k "0" ++ s) = repeatChar k "0" ++ s.
Proof.
  intros HR Hs. induction k as [|k IH]; [exact Hs|].
  simpl repeatChar. rewrite append_cons. cbn [numericPrefix].
  rewrite digitIn_zero by exact HR. rewrite IH. reflexivity.
Qed.

Lemma natToString_digits (R n : Z) :
  supported R -> 0 <= n ->
  numericPrefix R (natToString R n) = natToString R n.
Proof. intros HR Hn. apply digitsOf_digits; auto. Qed.

Lemma natToString_nonempty (R n : Z) : natToString R n <> EmptyString.
Proof. apply digitsOf_nonempty. Qed.

Lemma append_nonempty (r s : string) :
  s <> EmptyString -> r ++ s <> EmptyString.
Proof.
  intros Hs. destruct r as [|c r]; [exact Hs|].
  rewrite append_cons. discriminate.
Qed.

(** The padded digits of a number: all digits, not empty, and worth the
    number. *)
Lemma padStart_digits (R n : Z) (len : nat) :
  supported R -> 0 <= n ->
  let padded := padStart len "0" (natToString R n) in
  numericPrefix R padded = padded
  /\ padded <> EmptyString
  /\ valueOf R padded 0 = n.
Proof.
  intros HR Hn padded. unfold padded, padStart.
  split; [|split].
  - apply numericPrefix_zeros; [exact HR | apply natToString_digits; auto].
  - apply append_nonempty, natToString_nonempty.
  - rewrite valueOf_zeros by exact HR. apply natToString_value; auto.
Qed.

Lemma digitIn16_upper (c : ascii) :
  digitIn 16 (charToUpperCase c) = digitIn 16 c.
Proof. each_char c; reflexivity. Qed.

Lemma valueOf16_upper (s : string) (acc : Z) :
  valueOf 16 (toUpperCase s) acc = valueOf 16 s acc.
Proof.
  revert acc. induction s as [|c r IH]; intros acc; [reflexivity|].
  cbn [toUpperCase valueOf]. rewrite digitIn16_upper. apply IH.
Qed.

Lemma numericPrefix16_upper (s : string) :
  numericPrefix 16 s = s ->
  numericPrefix 16 (toUpperCase s) = toUpperCase s.
Proof.
  induction s as [|c r IH]; [reflexivity|].
  cbn [toUpperCase numericPrefix]. rewrite digitIn16_upper.
  destruct (digitIn 16 c); [|discriminate].
  intros [= Hr]. rewrite IH by exact Hr. reflexivity.
Qed.



Lemma digit_not_space (c : ascii) (d : Z) :
  hexDigit c = Some d -> Ascii.eqb c " " = false.
Proof. each_char c; intros H; try discriminate H; reflexivity. Qed.

Lemma dropSpaces_digits (R : Z) (s : string) :
  numericPrefix R s = s -> dropSpaces s = s.
Proof.
  induction s as [|c r IH]; [reflexivity|].
  cbn [numericPrefix dropSpaces].
  destruct (digitIn R c) as [d|] eqn:Hd; [|discriminate].
  intros [= Hr].
  rewrite (digit_not_space c d (digitIn_hexDigit R c d Hd)).
  rewrite IH by exact Hr. reflexivity.
Qed.

Lemma dropSpaces_spaceEveryFour_bounded (k : nat) (s : string) :
  (String.length s <= k)%nat -> dropSpaces (spaceEveryFour s) = dropSpaces s.
Proof.
  revert s. induction k as [|k IH]; intros s Hlen.
  - destruct s; [reflexivity | simpl in Hlen; lia].
  - destruct s as [|a [|b [|c [|d r]]]]; try reflexivity.
    cbn [spaceEveryFour dropSpaces].
    change (Ascii.eqb " " " ") with true. cbv iota.
    rewrite (IH r) by (simpl in Hlen; lia). reflexivity.
Qed.

Lemma dropSpaces_spaceEveryFour (s : string) :
  dropSpaces (spaceEveryFour s) = dropSpaces s.
Proof. apply (dropSpaces_spaceEveryFour_bounded (String.length s)). lia. Qed.

Lemma length_digitsOf (fuel : nat) (R n : Z) (acc : string) :
  (String.length (digitsOf fuel R n acc) <= fuel + String.length acc)%nat.
Proof.
  revert n acc. induction fuel as [|f IH]; intros n acc; [simpl; lia|].
  rewrite digitsOf_S. destruct (n / R =? 0); [simpl; lia|].
  specialize (IH (n / R) (String (digitChar (n mod R)) acc)).
  simpl in IH. lia.
Qed.

Lemma length_spaceEveryFour_16 (s : string) :
  String.length s = 16%nat -> String.length (spaceEveryFour s) = 20%nat.
Proof.
  intros H.
  do 16 (destruct s as [|? s]; [discriminate H|]).
  destruct s; [reflexivity | discriminate H].
Qed.

(** X3. The binary form shows the number: without its spaces it reads in
    base 2 as the number it was made from, whatever the size of the
    number; for a 16-bit value it is 20 characters long, four groups of
    four bits with a space after each. *)
Theorem toBinaryWithSpaces_reads_back (n : Z) :
  0 <= n ->
  parseInt (dropSpaces (toBinaryWithSpaces (Num n))) 2 = Num n
  /\ (n <= 65535 ->
      String.length (toBinaryWithSpaces (Num n)) = 20%nat
      /\ toBinaryWithSpaces (Num n)
         = spaceEveryFour (padStart 16 "0" (toString (Num n) 2))
      /\ String.length (padStart 16 "0" (toString (Num n) 2)) = 16%nat).
Proof.
  intros Hn. unfold toBinaryWithSpaces, toString.
  destruct (Z.ltb_spec n 0) as [Hlt|_]; [lia|].
  assert (H2 : supported 2) by (left; reflexivity).
  destruct (padStart_digits 2 n 16 H2 Hn) as (Hdigits & Hne & Hvalue).
  set (binStr := padStart 16 "0" (natToString 2 n)) in *.
  split.
  - rewrite dropSpaces_spaceEveryFour, (dropSpaces_digits 2) by exact Hdigits.
    rewrite parseInt_leading_digit by (auto; congruence).
    rewrite readDigits_value by (auto; congruence).
    rewrite Hdigits, Hvalue. reflexivity.
  - intros Hle.
    assert (Hlen : String.length binStr = 16%nat).
    { unfold binStr, padStart. rewrite length_append, length_repeatChar.
      assert (String.length (natToString 2 n) <= 16)%nat; [|lia].
      unfold natToString.
      pose proof (length_digitsOf (S (Z.to_nat (Z.log2 n))) 2 n EmptyString)
        as Hl.
      change (String.length EmptyString) with 0%nat in Hl.
      assert (Z.log2 n < 16).
      { destruct (Z.eq_dec n 0) as [->|Hnz]; [reflexivity|].
        apply Z.log2_lt_pow2; lia. }
      pose proof (Z.log2_nonneg n). lia. }
    split; [apply length_spaceEveryFour_16, Hlen|].
    split; [reflexivity | exact Hlen].
Qed.

Lemma toBinaryWithSpaces_reads_back_witness :
  parseInt (dropSpaces (toBinaryWithSpaces (Num 255))) 2 = Num 255.
Proof.
  apply (proj1 (toBinaryWithSpaces_reads_back 255 ltac:(lia))).
Defined.

(** ** Signs *)

Lemma readDigits_cons (R : Z) (s : string) :
  supported R -> numericPrefix R s <> EmptyString ->
  exists d ds,
    digitsPrefix R s = d :: ds
    /\ mathInt R (d :: ds) = valueOf R (numericPrefix R s) 0.
Proof.
  intros HR Hne. pose proof (readDigits_value R s HR Hne) as Hv.
  unfold readDigits in Hv.
  destruct (digitsPrefix R s) as [|d ds]; [discriminate Hv|].
  exists d, ds. split; [reflexivity|]. congruence.
Qed.

Lemma parseInt_with_sign (R : Z) (sign : ascii) (s : string) :
  R = 2 \/ R = 10 ->
  sign = "-"%char \/ sign = "+"%char ->
  numericPrefix R s <> EmptyString ->
  parseInt (String sign s) R
  = Num ((if Ascii.eqb sign "-" then -1 else 1)
         * valueOf R (numericPrefix R s) 0).
Proof.
  intros HR Hsign Hne.
  assert (HRs : supported R) by (unfold supported; tauto).
  destruct (readDigits_cons R s HRs Hne) as (d & ds & Hds & Hval).
  destruct HR as [->| ->], Hsign as [->| ->];
    unfold parseInt; simpl trimStart; cbn [stripSign];
    cbv beta iota zeta
      delta [Z.ltb Z.eqb Pos.eqb Z.compare Pos.compare Pos.compare_cont orb];
    rewrite Hds, Hval; reflexivity.
Qed.

(** X4. The parser reads a sign.  In base 10 a minus or a plus before the
    digits, and in base 2 one after the "b", is taken with the number, so
    negative values come out of the parser (safe integers, of magnitude
    below 2^53); after "0x" a sign is not a digit and the parse fails. *)
Theorem parseValue_sign (text : string) :
  (numericPrefix 10 text <> EmptyString ->
   valueOf 10 (numericPrefix 10 text) 0 < 2 ^ 53 ->
     parseValue (String "-" text)
     = Num (- valueOf 10 (numericPrefix 10 text) 0)
     /\ parseValue (String "+" text)
        = Num (valueOf 10 (numericPrefix 10 text) 0))
  /\ (numericPrefix 2 text <> EmptyString ->
      valueOf 2 (numericPrefix 2 text) 0 < 2 ^ 53 ->
        parseValue (String "b" (String "-" text))
        = Num (- valueOf 2 (numericPrefix 2 text) 0))
  /\ parseValue (String "0" (String "x" (String "-" text))) = NaN
  /\ parseValue (String "0" (String "x" (String "+" text))) = NaN.
Proof.
  split; [|split; [|split]].
  - intros Hne _. split; rewrite parseValue_selected; cbn [selected];
      change (10 =? 16) with false; cbv iota;
      rewrite parseInt_with_sign by auto;
      [change (Ascii.eqb "-" "-") with true
      |change (Ascii.eqb "+" "-") with false]; cbv iota; f_equal; lia.
  - intros Hne _. rewrite parseValue_selected. cbn [selected].
    change (2 =? 16) with false. cbv iota.
    rewrite parseInt_with_sign by auto.
    change (Ascii.eqb "-" "-") with true. cbv iota. f_equal; lia.
  - rewrite parseValue_selected. reflexivity.
  - rewrite parseValue_selected. reflexivity.
Qed.

Lemma parseValue_sign_witness : parseValue "-42" = Num (- 42).
Proof.
  apply (proj1 (proj1 (parseValue_sign "42") ltac:(discriminate)
                  ltac:(reflexivity))).
Defined.

(** ** Numbers written in decimal *)

Lemma selected_decimal (s : string) :
  numericPrefix 10 s = s -> selected s = (10, s).
Proof.
  destruct s as [|c r]; [reflexivity|].
  each_char c; intros H; try reflexivity; try discriminate H.
  destruct r as [|c2 r2]; [reflexivity|].
  each_char c2; try reflexivity; discriminate H.
Qed.

(** A safe integer, or Not-a-Number, written in decimal by [String] parses
    back to itself. *)
Lemma parseValue_toString (v : Number) :
  safeNumber v -> parseValue (toString v 10) = v.
Proof.
  intros _.
  assert (H10 : supported 10) by (right; left; reflexivity).
  destruct v as [|z]; [reflexivity|].
  unfold toString. destruct (Z.ltb_spec z 0) as [Hlt|Hge].
  - rewrite parseValue_selected. cbn [selected].
    change (10 =? 16) with false. cbv iota.
    rewrite parseInt_with_sign;
      [|auto|auto|rewrite natToString_digits by (auto; lia);
                  apply natToString_nonempty].
    rewrite natToString_digits, natToString_value by (auto; lia).
    change (Ascii.eqb "-" "-") with true. cbv iota. f_equal; lia.
  - rewrite parseValue_selected.
    rewrite selected_decimal by (apply natToString_digits; auto).
    change (10 =? 16) with false. cbv iota.
    pose proof (parseInt_toString z Hge) as Hp. unfold toString in Hp.
    destruct (Z.ltb_spec z 0); [lia | exact Hp].
Qed.

(** ** One piece, or none *)

Lemma split_ws_aux_piece (s : string) (cur : list ascii) :
  noWhiteSpace s = true ->
  split_ws_aux s cur false
  = [string_of_list_ascii (rev cur ++ list_ascii_of_string s)%list].
Proof.
  revert cur. induction s as [|c r IH]; intros cur Hs.
  - simpl. rewrite app_nil_r. reflexivity.
  - cbn [noWhiteSpace] in Hs. apply andb_true_iff in Hs.
    destruct Hs as [Hc Hr]. apply negb_true_iff in Hc.
    cbn [split_ws_aux]. rewrite Hc, (IH (c :: cur) Hr).
    simpl. rewrite <- app_assoc. reflexivity.
Qed.

(** A text without white space is one piece. *)
Lemma split_ws_piece (s : string) :
  noWhiteSpace s = true -> split_ws s = [s].
Proof.
  intros Hs. unfold split_ws. rewrite split_ws_aux_piece by exact Hs.
  simpl. rewrite string_of_list_ascii_of_string. reflexivity.
Qed.

Lemma piece_single (s : string) (i : nat) :
  piece [s] i
  = match i with
    | O => if String.eqb s EmptyString then None else Some s
    | S _ => None
    end.
Proof. destruct i; reflexivity. Qed.

(** The arguments of a read when at most one piece was typed. *)
Lemma readArguments_single (cfg : Config) (line : string) :
  noWhiteSpace (trim line) = true ->
  safeNumber (DEFAULT_QUANTITY cfg) ->
  readArguments cfg line
  = (if String.eqb (trim line) EmptyString then Num 0
     else parseValue (trim line),
     DEFAULT_QUANTITY cfg).
Proof.
  intros Hline Hsafe. unfold readArguments.
  rewrite (split_ws_piece _ Hline), !piece_single.
  cbn [default]. rewrite parseValue_toString by exact Hsafe.
  destruct (String.eqb (trim line) EmptyString); reflexivity.
Qed.

(** X5. The defaults of a read.  When the operator types nothing, the read
    asks the device for address 0; when no quantity is typed, for the
    default quantity of the configuration, when that is a safe integer
    (of magnitude below 2^53) or Not-a-Number. *)
Theorem handleRead_defaults (cfg : Config) (names : RegisterNames)
  (client : Client) (functionCode line : string) (rest : list string)
  (request : Call) :
  noWhiteSpace (trim line) = true ->
  safeNumber (DEFAULT_QUANTITY cfg) ->
  let address :=
    if String.eqb (trim line) EmptyString then Num 0
    else parseValue (trim line) in
  readCall functionCode address (DEFAULT_QUANTITY cfg) = Some request ->
  calls (events (handleRead cfg names client functionCode) (line :: rest))
  = [request].
Proof.
  intros Hline Hsafe address Hcall. apply handleRead_calls.
  rewrite (readArguments_single cfg line Hline Hsafe). exact Hcall.
Qed.

Lemma handleRead_defaults_witness :
  calls (events (handleRead config no_names bench_device "0x03") ["  "])
  = [ReadHoldingRegisters (Num 0) (Num 1)].
Proof.
  apply (handleRead_defaults config no_names bench_device "0x03" "  " []).
  - reflexivity.
  - unfold safeNumber, safeInteger. simpl. lia.
  - reflexivity.
Defined.

(** X6. A write needs a value.  When the line typed holds the address
    alone, or nothing, the write reports that an address and a value are
    needed, whatever the function code, and sends nothing. *)
Theorem handleWrite_needs_a_value (cfg : Config) (client : Client)
  (functionCode line : string) (rest : list string) :
  noWhiteSpace (trim line) = true ->
  run (handleWrite cfg client functionCode) (line :: rest)
  = (Return tt, [Asked writeQuestion; InvalidInput])
  /\ calls (events (handleWrite cfg client functionCode) (line :: rest)) = [].
Proof.
  intros Hline.
  assert (Hrun : run (handleWrite cfg client functionCode) (line :: rest)
                 = (Return tt, [Asked writeQuestion; InvalidInput])).
  { apply handleWrite_too_few. unfold writeParts.
    rewrite (split_ws_piece _ Hline). simpl. lia. }
  split; [exact Hrun|]. unfold events. rewrite Hrun. reflexivity.
Qed.

Lemma handleWrite_needs_a_value_witness :
  run (handleWrite config bench_device "0x10") [" 0x10 "]
  = (Return tt, [Asked writeQuestion; InvalidInput]).
Proof.
  apply (handleWrite_needs_a_value config bench_device "0x10" " 0x10 " []).
  reflexivity.
Defined.

(** ** Reads of coils and discrete inputs *)

(** X7. The rows of a bit read, for a start address and a quantity that
    are safe integers (of magnitude below 2^53).  Of the values the device
    returns, the first [quantity] are shown and the rest dropped; when
    fewer come back they are all shown.  The row at index [i], while
    [startAddress + i + 1] is a safe integer too, has for id the class
    prefix ("C" or "DI") followed by [startAddress + i + 1], for address
    the display form of [startAddress + i], and for value the bit
    received at that index. *)
Theorem handleRead_bit_rows (cfg : Config) (names : RegisterNames)
  (client : Client) (functionCode line : string) (rest : list string)
  (startAddress quantity : Z) (data : list bool) :
  readArguments cfg line = (Num startAddress, Num quantity) ->
  bitsRead client functionCode (Num startAddress) (Num quantity) data ->
  safeInteger startAddress ->
  0 <= quantity < 2 ^ 53 ->
  exists rows,
    tables (events (handleRead cfg names client functionCode) (line :: rest))
    = [rows]
    /\ Z.of_nat (length rows) = Z.min quantity (Z.of_nat (length data))
    /\ (forall (i : nat) (boolVal : bool),
          data !! i = Some boolVal -> Z.of_nat i < quantity ->
          let address := startAddress + Z.of_nat i in
          safeInteger (address + 1) ->
          rows !! i
          = Some (BitRow
                    (classPrefix functionCode
                     ++ toString (Num (address + 1)) 10)
                    (toHex (Num address))
                    (getRegisterName names functionCode (toHex (Num address)))
                    boolVal))
    /\ (forall i : nat, quantity <= Z.of_nat i -> rows !! i = None).
Proof.
  intros Hargs Hread _ [Hq _].
  exists (bitRows names functionCode (Num startAddress) (Num quantity) data).
  assert (Ha : fst (readArguments cfg line) = Num startAddress)
    by (rewrite Hargs; reflexivity).
  assert (Hqq : snd (readArguments cfg line) = Num quantity)
    by (rewrite Hargs; reflexivity).
  split; [|split; [|split]].
  - rewrite <- Ha, <- Hqq. apply handleRead_bit_table.
    rewrite Ha, Hqq. exact Hread.
  - unfold bitRows, slice0.
    destruct (Z.ltb_spec quantity 0) as [Hlt|_]; [lia|].
    rewrite length_imap, length_take. lia.
  - intros i boolVal Hdata Hi address _. unfold bitRows, slice0.
    destruct (Z.ltb_spec quantity 0) as [Hlt|_]; [lia|].
    rewrite list_lookup_imap, lookup_take_lt, Hdata by lia. simpl.
    assert (Hp : (if String.eqb functionCode "0x01" then "C" else "DI")
                 = classPrefix functionCode)
      by (destruct Hread as [[-> _]|[-> _]]; reflexivity).
    rewrite Hp. reflexivity.
  - intros i Hi. unfold bitRows, slice0.
    destruct (Z.ltb_spec quantity 0) as [Hlt|_]; [lia|].
    rewrite list_lookup_imap, lookup_take_ge by lia. reflexivity.
Qed.

Lemma handleRead_bit_rows_witness :
  exists rows,
    tables (events (handleRead config no_names bench_device "0x01") ["3 2"])
    = [rows]
    /\ Z.of_nat (length rows) = Z.min 2 (Z.of_nat 8)
    /\ (forall (i : nat) (boolVal : bool),
          [true; false; true; true; false; false; false; false] !! i
          = Some boolVal ->
          Z.of_nat i < 2 ->
          safeInteger (3 + Z.of_nat i + 1) ->
          rows !! i
          = Some (BitRow ("C" ++ toString (Num (3 + Z.of_nat i + 1)) 10)
                    (toHex (Num (3 + Z.of_nat i)))
                    (getRegisterName no_names "0x01"
                       (toHex (Num (3 + Z.of_nat i))))
                    boolVal))
    /\ (forall i : nat, 2 <= Z.of_nat i -> rows !! i = None).
Proof.
  apply (handleRead_bit_rows config no_names bench_device "0x01" "3 2" []
           3 2 [true; false; true; true; false; false; false; false]).
  - reflexivity.
  - left. split; reflexivity.
  - unfold safeInteger. lia.
  - lia.
Defined.

(** ** Writes that fail *)

(** X8. When the write primitive of the transport fails, the write reports
    a transport error that carries the message of the failure, and does
    not report success. *)
Theorem handleWrite_transport_failure (cfg : Config) (client : Client)
  (line : string) (rest : list string) (message : string) :
  (2 <= length (writeParts line))%nat ->
  let startAddress := fst (writeArguments line) in
  let booleanVals := map nonzero (snd (writeArguments line)) in
  let registerVals := map (convertEndianness cfg) (snd (writeArguments line)) in
  (writeCoils client startAddress booleanVals = Reject message ->
     run (handleWrite cfg client "0x0f") (line :: rest)
     = (Return tt,
        [Asked writeQuestion; Called (WriteCoils startAddress booleanVals);
         WriteTransportError message]))
  /\ (writeRegisters client startAddress registerVals = Reject message ->
        run (handleWrite cfg client "0x10") (line :: rest)
        = (Return tt,
           [Asked writeQuestion;
            Called (WriteRegisters startAddress registerVals);
            WriteTransportError message])).
Proof.
  intros Hparts startAddress booleanVals registerVals. split; intros Hfail.
  - rewrite (handleWrite_coils cfg client line rest Hparts). cbv zeta.
    fold startAddress. change (map _ (snd (writeArguments line)))
      with booleanVals. rewrite Hfail. reflexivity.
  - rewrite (handleWrite_registers cfg client line rest Hparts). cbv zeta.
    fold startAddress registerVals. rewrite Hfail. reflexivity.
Qed.

Lemma handleWrite_transport_failure_witness :
  run (handleWrite config_little offline_device "0x10") ["4 258"]
  = (Return tt,
     [Asked writeQuestion; Called (WriteRegisters (Num 4) [Num 513]);
      WriteTransportError "Port Not Open"]).
Proof.
  apply (handleWrite_transport_failure config_little offline_device
           "4 258" [] "Port Not Open").
  - vm_compute. lia.
  - reflexivity.
Defined.

(** ** One request at a time *)

Lemma readCall_isReadCall (functionCode : string) (a q : Number)
  (request : Call) :
  readCall functionCode a q = Some request -> isReadCall request = true.
Proof.
  unfold readCall.
  repeat (destruct (String.eqb functionCode _);
          [intros [= <-]; reflexivity|]).
  discriminate.
Qed.

(** X9. Each handler sends at most one request to the device, whatever
    is typed and whatever the function code: the read handler only ever a
    read request, the write handler only ever a write request. *)
Theorem handlers_send_one_request (cfg : Config) (names : RegisterNames)
  (client : Client) (functionCode : string) (lines : list string) :
  let reads :=
    calls (events (handleRead cfg names client functionCode) lines) in
  let writes := calls (events (handleWrite cfg client functionCode) lines) in
  (length reads <= 1)%nat
  /\ Forall (fun c => isReadCall c = true) reads
  /\ (length writes <= 1)%nat
  /\ Forall (fun c => isWriteCall c = true) writes.
Proof.
  intros reads writes.
  assert (Hreads : reads = [] \/ exists c, reads = [c] /\ isReadCall c = true).
  { unfold reads. destruct lines as [|line rest]; [left; reflexivity|].
    destruct (readCall functionCode (fst (readArguments cfg line))
                (snd (readArguments cfg line))) as [request|] eqn:Hcall.
    - right. exists request. split.
      + apply handleRead_calls, Hcall.
      + apply (readCall_isReadCall _ _ _ _ Hcall).
    - left. unfold events.
      rewrite (handleRead_no_call cfg names client _ line rest Hcall).
      reflexivity. }
  assert (Hwrites :
            writes = [] \/ exists c, writes = [c] /\ isWriteCall c = true).
  { unfold writes. destruct lines as [|line rest]; [left; reflexivity|].
    destruct (Nat.lt_ge_cases (length (writeParts line)) 2) as [Hfew|Hparts].
    - left. unfold events.
      rewrite (handleWrite_too_few cfg client _ line rest Hfew). reflexivity.
    - destruct (String.eqb_spec functionCode "0x0f") as [->|Hf].
      + right. eexists. split; [apply handleWrite_coils_calls, Hparts|].
        reflexivity.
      + destruct (String.eqb_spec functionCode "0x10") as [->|H10].
        * right. eexists.
          split; [apply handleWrite_registers_calls, Hparts|]. reflexivity.
        * left. unfold events.
          rewrite (handleWrite_unsupported cfg client _ line rest
                     Hparts Hf H10). reflexivity. }
  destruct Hreads as [->|(c & -> & Hc)], Hwrites as [->|(d & -> & Hd)];
    repeat split; simpl; auto.
Qed.

(** ** The main loop *)

(** A handler takes the line it asks for and returns; without a line it
    waits.  It never throws: what the device rejects is caught. *)
Lemma handleRead_settles (cfg : Config) (names : RegisterNames)
  (client : Client) (functionCode : string) (w : World) :
  fst (handleRead cfg names client functionCode w)
  = match stdin w with [] => Pending | _ :: _ => Return tt end
  /\ stdin (snd (handleRead cfg names client functionCode w)) = tail (stdin w).
Proof.
  destruct w as [[|line rest] tr]; step_handler; [split; reflexivity|].
  destruct (readRequest client functionCode _ _)
    as [[request [[bits|words]|m]]|]; split; reflexivity.
Qed.

Lemma handleWrite_settles (cfg : Config) (client : Client)
  (functionCode : string) (w : World) :
  fst (handleWrite cfg client functionCode w)
  = match stdin w with [] => Pending | _ :: _ => Return tt end
  /\ stdin (snd (handleWrite cfg client functionCode w)) = tail (stdin w).
Proof.
  destruct w as [[|line rest] tr]; step_handler; [split; reflexivity|].
  destruct (_ <? 2)%nat; [split; reflexivity|].
  destruct (String.eqb functionCode "0x0f").
  - destruct (writeCoils client _ _); split; reflexivity.
  - destruct (String.eqb functionCode "0x10"); [|split; reflexivity].
    destruct (writeRegisters client _ _); split; reflexivity.
Qed.

Lemma mainLoopRound_settles (cfg : Config) (names : RegisterNames)
  (client : Client) (w : World) :
  roundSettled w (mainLoopRound cfg names client w).
Proof.
  unfold roundSettled.
  destruct w as [[|typed rest] tr]; [reflexivity|].
  cbv beta iota zeta
    delta [mainLoopRound bind emit console_log console_error askQuestion
           ret stdin trace].
  set (funcCode := toLowerCase (trim typed)).
  destruct (String.eqb funcCode "quit").
  { simpl. split; [lia|]. intros _. apply last_snoc. }
  destruct (String.eqb funcCode "0x01" || String.eqb funcCode "0x02"
            || String.eqb funcCode "0x03" || String.eqb funcCode "0x04").
  { match goal with
    | |- context [handleRead cfg names client funcCode ?W] =>
        destruct (handleRead_settles cfg names client funcCode W) as [Hf Hs];
        destruct (handleRead cfg names client funcCode W)
          as [[u|m|] [lines' tr']]
    end; simpl in Hf, Hs |- *; subst lines'.
    - destruct rest; [discriminate Hf|]. simpl.
      split; [lia | discriminate].
    - destruct rest; discriminate Hf.
    - destruct rest; [reflexivity | discriminate Hf]. }
  destruct (String.eqb funcCode "0x0f" || String.eqb funcCode "0x10").
  { match goal with
    | |- context [handleWrite cfg client funcCode ?W] =>
        destruct (handleWrite_settles cfg client funcCode W) as [Hf Hs];
        destruct (handleWrite cfg client funcCode W)
          as [[u|m|] [lines' tr']]
    end; simpl in Hf, Hs |- *; subst lines'.
    - destruct rest; [discriminate Hf|]. simpl.
      split; [lia | discriminate].
    - destruct rest; discriminate Hf.
    - destruct rest; [reflexivity | discriminate Hf]. }
  simpl. split; [lia | discriminate].
Qed.

(** X10. The main loop ends well.  Whatever is typed and whatever the
    device answers, the loop never throws: within as many rounds as lines
    typed it either ends on a quit, "Exiting..." being the last thing it
    prints, or is left waiting for a line with every line typed read. *)
Theorem mainLoop_settles (cfg : Config) (names : RegisterNames)
  (client : Client) (lines : list string) (rounds : nat) :
  (length lines < rounds)%nat ->
  loopSettled
    (mainLoopWhile cfg names client rounds {| stdin := lines; trace := [] |}).
Proof.
  intros Hlen.
  set (w := {| stdin := lines; trace := [] |}).
  assert (Hw : (length (stdin w) < rounds)%nat) by exact Hlen.
  clearbody w. clear Hlen lines. revert w Hw.
  induction rounds as [|k IH]; intros w Hw; [lia|].
  cbn [mainLoopWhile]. unfold bind.
  pose proof (mainLoopRound_settles cfg names client w) as Hround.
  unfold roundSettled in Hround.
  destruct (mainLoopRound cfg names client w) as [[again|m|] w'];
    simpl in Hround.
  - destruct Hround as [Hless Hbye]. destruct again.
    + apply IH. lia.
    + unfold loopSettled, ret. simpl. split; [reflexivity | auto].
  - contradiction.
  - exact Hround.
Qed.

Lemma mainLoop_settles_witness :
  loopSettled
    (mainLoopWhile config no_names offline_device 4
       {| stdin := ["0x03"; "4 4"; "Quit"]; trace := [] |}).
Proof.
  apply (mainLoop_settles config no_names offline_device
           ["0x03"; "4 4"; "Quit"] 4).
  simpl. lia.
Defined.

(** X11. Quitting.  When what is typed for the function code is "quit",
    in any letter case and with blanks around it, the loop ends there: it
    prints "Exiting...", sends nothing to the device, reports no error and
    leaves the lines that follow unread. *)
Theorem mainLoop_quit (cfg : Config) (names : RegisterNames)
  (client : Client) (typed : string) (rest : list string) (rounds : nat) :
  typedCode typed = "quit" ->
  let end_ :=
    mainLoopWhile cfg names client (S rounds)
      {| stdin := typed :: rest; trace := [] |} in
  fst end_ = Return true
  /\ stdin (snd end_) = rest
  /\ calls (trace (snd end_)) = []
  /\ errors (trace (snd end_)) = []
  /\ last (trace (snd end_)) = Some (Log "Exiting...").
Proof.
  intros Hquit end_. unfold typedCode in Hquit. unfold end_.
  cbn [mainLoopWhile]. step_loop. rewrite Hquit. decide_code.
  repeat split.
Qed.

Lemma mainLoop_quit_witness :
  fst (mainLoopWhile config no_names bench_device 1
         {| stdin := ["  QUIT "; "0x03"]; trace := [] |}) = Return true.
Proof.
  apply (mainLoop_quit config no_names bench_device "  QUIT " ["0x03"] 0).
  reflexivity.
Defined.

(** X12. An unrecognized function code.  When what is typed is neither
    "quit" nor one of the six codes, the round reports it, asks nothing
    more, sends nothing to the device and goes on to the next round with
    the lines that follow unread. *)
Theorem mainLoopRound_unrecognized (cfg : Config) (names : RegisterNames)
  (client : Client) (typed : string) (rest : list string) :
  typedCode typed <> "quit" ->
  ~ readCode (typedCode typed) ->
  ~ writeCode (typedCode typed) ->
  let end_ :=
    mainLoopRound cfg names client {| stdin := typed :: rest; trace := [] |} in
  fst end_ = Return true
  /\ stdin (snd end_) = rest
  /\ calls (trace (snd end_)) = []
  /\ errors (trace (snd end_))
     = [["Unrecognized function code. Please try again."]].
Proof.
  intros Hquit Hread Hwrite end_.
  unfold typedCode, readCode, writeCode in Hquit, Hread, Hwrite.
  unfold end_. step_loop.
  set (funcCode := toLowerCase (trim typed)) in *.
  apply String.eqb_neq in Hquit.
  assert (H1 : String.eqb funcCode "0x01" = false)
    by (apply String.eqb_neq; tauto).
  assert (H2 : String.eqb funcCode "0x02" = false)
    by (apply String.eqb_neq; tauto).
  assert (H3 : String.eqb funcCode "0x03" = false)
    by (apply String.eqb_neq; tauto).
  assert (H4 : String.eqb funcCode "0x04" = false)
    by (apply String.eqb_neq; tauto).
  assert (Hf : String.eqb funcCode "0x0f" = false)
    by (apply String.eqb_neq; tauto).
  assert (H10 : String.eqb funcCode "0x10" = false)
    by (apply String.eqb_neq; tauto).
  rewrite Hquit, H1, H2, H3, H4, Hf, H10. repeat split.
Qed.

Lemma mainLoopRound_unrecognized_witness :
  errors (trace (snd (mainLoopRound config no_names bench_device
                        {| stdin := ["0x05"; "1 1"]; trace := [] |})))
  = [["Unrecognized function code. Please try again."]].
Proof.
  apply (mainLoopRound_unrecognized config no_names bench_device
           "0x05" ["1 1"]).
  - discriminate.
  - unfold readCode, typedCode. vm_compute.
    intros [H|[H|[H|H]]]; discriminate H.
  - unfold writeCode, typedCode. vm_compute.
    intros [H|H]; discriminate H.
Defined.

(** ** The letter case of the address asked for *)

Lemma toUpperCase_replace (u : string) :
  toUpperCase (replace "0X" "0x" u) = toUpperCase u.
Proof.
  induction u as [|c r IH]; [reflexivity|].
  each_char c; try (simpl; rewrite IH; reflexivity).
  destruct r as [|c2 r2]; [reflexivity|].
  each_char c2;
    try (simpl in IH |- *; f_equal; exact IH).
  simpl. rewrite prefix_empty. reflexivity.
Qed.

(** X13. Name resolution does not depend on the letter case of the
    address asked for: two addresses that differ in case only resolve to
    the same name, normalizing an address twice is normalizing it once,
    and an address resolves as its normal form does. *)
Theorem getRegisterName_query_case (names : RegisterNames)
  (functionCode a b : string) :
  (toUpperCase a = toUpperCase b ->
     getRegisterName names functionCode a
     = getRegisterName names functionCode b)
  /\ normalizeAddress (normalizeAddress a) = normalizeAddress a
  /\ getRegisterName names functionCode (normalizeAddress a)
     = getRegisterName names functionCode a.
Proof.
  assert (Hidem : normalizeAddress (normalizeAddress a) = normalizeAddress a).
  { unfold normalizeAddress.
    rewrite toUpperCase_replace, toUpperCase_idem. reflexivity. }
  split; [|split].
  - intros Hcase. rewrite !getRegisterName_tableFor.
    unfold normalizeAddress. rewrite Hcase. reflexivity.
  - exact Hidem.
  - rewrite !getRegisterName_tableFor, Hidem. reflexivity.
Qed.

Lemma getRegisterName_query_case_witness :
  getRegisterName readme_names "0x03" "0x000a"
  = getRegisterName readme_names "0x03" "0X000A".
Proof.
  apply (proj1 (getRegisterName_query_case readme_names "0x03"
                  "0x000a" "0X000A")).
  reflexivity.
Defined.

(** ** Rows of a register read *)

Lemma length_toUpperCase (s : string) :
  String.length (toUpperCase s) = String.length s.
Proof. induction s as [|c r IH]; simpl; congruence. Qed.

(** The display form of a non-negative number: "0x", then its hex digits
    in uppercase, padded with zeros to four at least. *)
Lemma toHex_form (n : Z) :
  0 <= n ->
  exists digits,
    toHex (Num n) = String "0" (String "x" digits)
    /\ (4 <= String.length digits)%nat
    /\ toUpperCase digits = digits
    /\ numericPrefix 16 digits = digits
    /\ valueOf 16 digits 0 = n.
Proof.
  intros Hn.
  assert (H16 : supported 16) by (right; right; reflexivity).
  destruct (padStart_digits 16 n 4 H16 Hn) as (Hdigits & _ & Hvalue).
  exists (toUpperCase (padStart 4 "0" (natToString 16 n))).
  split; [|split; [|split; [|split]]].
  - unfold toHex, toString.
    destruct (Z.ltb_spec n 0) as [Hlt|_]; [lia | reflexivity].
  - rewrite length_toUpperCase. unfold padStart.
    rewrite length_append, length_repeatChar. lia.
  - apply toUpperCase_idem.
  - apply numericPrefix16_upper, Hdigits.
  - rewrite valueOf16_upper. exact Hvalue.
Qed.

(** C6, as stated, fails above 0xFFFF: read from 0xFFFF on, the second
    register is shown at address "0x10000", five hex digits and not the
    four-digit form of 65536. *)
Lemma registerRows_address_five_digits :
  tables (events (handleRead config no_names bench_device "0x03")
            ["0xFFFF 2"])
  = [[RegisterRow "HR65536" "0xFFFF" EmptyString (Num 1)
        "0x0001" "0000 0000 0000 0001 ";
      RegisterRow "HR65537" "0x10000" EmptyString (Num 2)
        "0x0002" "0000 0000 0000 0010 "]]
  /\ toHex (Num (65535 + 1)) <> hex4 (65535 + 1)
  /\ String.length (toHex (Num (65535 + 1))) <> 6%nat.
Proof.
  split; [vm_compute; reflexivity|].
  split; vm_compute; discriminate.
Qed.

(** C6, amended. In a register-class read that starts at [startAddress],
    with addresses and ids that are safe integers (below 2^53), the row at
    index [i] has for id the class prefix followed by
    [startAddress + i + 1] in decimal; for address "0x" followed by the
    uppercase hex digits of [startAddress + i], padded with zeros to four
    digits at least (exactly the four-digit form up to 0xFFFF, more digits
    above); and with BIG the decimal value shown is the raw value.
    Reading four holding registers from address 4 with raw values 0,
    65535, 65535, 255 prints the table of the README. *)
Theorem registerRows_row (cfg : Config) (names : RegisterNames)
  (client : Client) (functionCode line : string) (rest : list string)
  (startAddress : Z) (quantity : Number) (data : list Number)
  (index : nat) (rawVal : Number) :
  readArguments cfg line = (Num startAddress, quantity) ->
  registersRead client functionCode (Num startAddress) quantity data ->
  safeNumber quantity ->
  0 <= startAddress ->
  data !! index = Some rawVal ->
  let address := startAddress + Z.of_nat index in
  address + 1 < 2 ^ 53 ->
  (exists rows,
     tables (events (handleRead cfg names client functionCode) (line :: rest))
     = [rows]
     /\ rows !! index
        = Some (RegisterRow
                  (classPrefix functionCode ++ toString (Num (address + 1)) 10)
                  (toHex (Num address))
                  (getRegisterName names functionCode (toHex (Num address)))
                  (convertEndianness cfg rawVal)
                  (toHex (convertEndianness cfg rawVal))
                  (toBinaryWithSpaces (convertEndianness cfg rawVal))))
  /\ parseInt (toString (Num (address + 1)) 10) 10 = Num (address + 1)
  /\ (exists digits,
        toHex (Num address) = String "0" (String "x" digits)
        /\ (4 <= String.length digits)%nat
        /\ toUpperCase digits = digits
        /\ numericPrefix 16 digits = digits
        /\ valueOf 16 digits 0 = address)
  /\ (address <= 65535 -> toHex (Num address) = hex4 address)
  /\ (ENDIANNESS cfg = "BIG" -> convertEndianness cfg rawVal = rawVal)
  /\ run (handleRead config readme_names readme_device "0x03") ["4 4"]
     = (Return tt,
        [Asked readQuestion;
         Called (ReadHoldingRegisters (Num 4) (Num 4));
         Log (dquote ++ "Read Holding Registers" ++ dquote
              ++ " 4 registers from 0x0004.");
         Table
           [RegisterRow "HR5" "0x0004" "CALIBRATE_SENSOR" (Num 0)
              "0x0000" "0000 0000 0000 0000 ";
            RegisterRow "HR6" "0x0005" "SYS_AUTOSTART_TIME" (Num 65535)
              "0xFFFF" "1111 1111 1111 1111 ";
            RegisterRow "HR7" "0x0006" "SYS_AUTOSTOP_TIME" (Num 65535)
              "0xFFFF" "1111 1111 1111 1111 ";
            RegisterRow "HR8" "0x0007" "SYS_SAVE_SETTINGS" (Num 255)
              "0x00FF" "0000 0000 1111 1111 "]]).
Proof.
  intros Hargs Hread _ Hstart Hdata address _.
  split; [|split; [apply parseInt_toString; lia|
           split; [apply toHex_form; lia|split; [|split]]]].
  - exists (registerRows cfg names functionCode (Num startAddress) data).
    split.
    + assert (Ha : fst (readArguments cfg line) = Num startAddress)
        by (rewrite Hargs; reflexivity).
      assert (Hq : snd (readArguments cfg line) = quantity)
        by (rewrite Hargs; reflexivity).
      rewrite <- Ha. apply handleRead_register_table.
      rewrite Ha, Hq. exact Hread.
    + unfold registerRows. rewrite list_lookup_imap, Hdata. simpl.
      assert (Hp : (if String.eqb functionCode "0x03" then "HR" else "IR")
                   = classPrefix functionCode)
        by (destruct Hread as [[-> _]|[-> _]]; reflexivity).
      rewrite Hp. reflexivity.
  - intros Hle. apply toHex_hex4. lia.
  - intros HB. apply convertEndianness_big. unfold little. rewrite HB.
    discriminate.
  - vm_compute. reflexivity.
Qed.

Lemma registerRows_row_witness :
  exists rows,
    tables (events (handleRead config no_names bench_device "0x03")
              ["0xFFFF 2"]) = [rows]
    /\ rows !! 1%nat
       = Some (RegisterRow ("HR" ++ toString (Num (65535 + 1 + 1)) 10)
                 (toHex (Num (65535 + 1)))
                 (getRegisterName no_names "0x03" (toHex (Num (65535 + 1))))
                 (convertEndianness config (Num 2))
                 (toHex (convertEndianness config (Num 2)))
                 (toBinaryWithSpaces (convertEndianness config (Num 2)))).
Proof.
  apply (registerRows_row config no_names bench_device "0x03" "0xFFFF 2" []
           65535 (Num 2) [Num 1; Num 2] 1 (Num 2)).
  - reflexivity.
  - left. split; reflexivity.
  - unfold safeNumber, safeInteger. lia.
  - lia.
  - reflexivity.
  - simpl. lia.
Defined.
